(** * QuickStart chatbot: [examples/QuickStart_Chatbot/chatbot.py]

    A shallow embedding of the three functions of the script
    ([get_chat_response], [get_chat_response_azure], [main]) and the
    properties of the requests they build, the replies they extract and
    the failures they raise.

    Python values are embedded as an inductive type, the process
    environment as a finite map, and every call that leaves the script
    (printing, reading a line, [requests.post], the Azure SDK) as an event
    appended to a trace; what those calls answer is given by a [World]. *)

From Stdlib Require Import ZArith PrimFloat.
From stdpp Require Import base strings gmap list pretty.

Local Open Scope string_scope.
Local Open Scope Z_scope.
Local Open Scope list_scope.
Set Warnings "-register-all,-inexact-float".

(** ** Python values *)

Module Py.

(** The objects that [json.loads] produces and that the dict literal of
    the request body contains.  A [dict] keeps its insertion order, which
    is the order of the keys on the wire, so it is an association list;
    a [float] is an IEEE binary64 number, as in CPython. *)
Inductive pyval : Type :=
| PNone
| PBool (b : bool)
| PInt (n : Z)
| PFloat (f : float)
| PStr (s : string)
| PList (xs : list pyval)
| PDict (kvs : list (string * pyval)).

(** A subscript [obj[k]] of the script is either a string literal or the
    integer literal [0]. *)
Inductive key : Type :=
| KStr (s : string)
| KInt (i : Z).

(** Classes of [requests.exceptions]; each one derives from
    [RequestException]. *)
Inductive requests_class : Type :=
| ConnectionError
| Timeout
| TooManyRedirects
| HTTPError
| InvalidJSONError
| OtherRequestException.

(** The exceptions the script can meet.  [RequestException c msg] is an
    instance of the class [c] of [requests.exceptions] whose [str()] is
    [msg]. *)
Inductive exn : Type :=
| KeyError (k : key)
| IndexError
| TypeError
| ValueError (msg : string)
| EOFError
| ImportError (msg : string)
| SystemExit (code : Z)
| RequestException (c : requests_class) (msg : string)
| OpenAIError (msg : string).

(** [isinstance(e, requests.exceptions.RequestException)] *)
Definition is_RequestException (e : exn) : bool :=
  match e with
  | RequestException _ _ => true
  | _ => false
  end.

Inductive result (A : Type) : Type :=
| Return (a : A)
| Raise (e : exn).
Arguments Return {A} a.
Arguments Raise {A} e.

(** First binding of [k] in a dict. *)
Fixpoint dict_lookup (k : string) (kvs : list (string * pyval)) : option pyval :=
  match kvs with
  | [] => None
  | (k', v) :: rest => if String.eqb k k' then Some v else dict_lookup k rest
  end.

(** Sequence index with Python's wrap-around of negative indices. *)
Definition seq_index {A : Type} (xs : list A) (i : Z) : option A :=
  let n := Z.of_nat (length xs) in
  let j := if i <? 0 then i + n else i in
  if (0 <=? j) && (j <? n) then xs !! Z.to_nat j else None.

(** [obj[k]]: a dict raises [KeyError] on an absent key, a list or a str
    raises [IndexError] out of range and [TypeError] on a str index, and
    None, bool, int and float are not subscriptable. *)
Definition getitem (obj : pyval) (k : key) : result pyval :=
  match obj, k with
  | PDict kvs, KStr s =>
      match dict_lookup s kvs with
      | Some v => Return v
      | None => Raise (KeyError k)
      end
  | PDict _, KInt _ => Raise (KeyError k)
  | PList xs, KInt i =>
      match seq_index xs i with
      | Some v => Return v
      | None => Raise IndexError
      end
  | PList _, KStr _ => Raise TypeError
  | PStr s, KInt i =>
      match seq_index (String.list_ascii_of_string s) i with
      | Some c => Return (PStr (String c EmptyString))
      | None => Raise IndexError
      end
  | PStr _, KStr _ => Raise TypeError
  | (PNone | PBool _ | PInt _ | PFloat _), _ => Raise TypeError
  end.

(** *** [str.strip()] *)

(** [str.isspace] on one character.  A character of a [string] is a code
    point below 256; the table is CPython's whitespace table on that range:
    TAB, LF, VT, FF, CR, the separators 0x1C to 0x1F, SPACE, NEL (0x85)
    and NBSP (0xA0). *)
Definition isspace (c : Ascii.ascii) : bool :=
  let n := Z.of_N (Ascii.N_of_ascii c) in
  ((9 <=? n) && (n <=? 13)) || ((28 <=? n) && (n <=? 32))
  || (n =? 133) || (n =? 160).

Fixpoint lstrip (s : string) : string :=
  match s with
  | EmptyString => EmptyString
  | String c s' => if isspace c then lstrip s' else s
  end.

Fixpoint rstrip (s : string) : string :=
  match s with
  | EmptyString => EmptyString
  | String c s' =>
      match rstrip s' with
      | EmptyString => if isspace c then EmptyString else String c EmptyString
      | r => String c r
      end
  end.

Definition strip (s : string) : string := rstrip (lstrip s).

(** Truth value of a [str]: the empty string is falsy. *)
Definition str_truthy (s : string) : bool :=
  match s with
  | EmptyString => false
  | String _ _ => true
  end.

End Py.
Export Py.

(** ** The outside of the script *)

Module Requests.

(** The call [requests.post(url, headers=headers, json=data)]. *)
Record http_request : Type := {
  req_method : string;
  req_url : string;
  req_headers : list (string * string);
  req_json : pyval;
}.

(** A [requests.Response], as far as the script reads it: the status line,
    the final URL, and what [response.json()] does on the body (the decoded
    value, or the exception the decoder raises on a body that is not
    JSON). *)
Record Response : Type := {
  status_code : Z;
  reason : string;
  url : string;
  json : result pyval;
}.

(** [Response.raise_for_status] of the requests library: a 4xx status is a
    client error, a 5xx status a server error, and every other status
    returns None. *)
Definition raise_for_status (r : Response) : result unit :=
  let http_error_msg :=
    if (400 <=? status_code r) && (status_code r <? 500) then
      pretty (status_code r) +:+ " Client Error: " +:+ reason r
        +:+ " for url: " +:+ url r
    else if (500 <=? status_code r) && (status_code r <? 600) then
      pretty (status_code r) +:+ " Server Error: " +:+ reason r
        +:+ " for url: " +:+ url r
    else "" in
  if str_truthy http_error_msg
  then Raise (RequestException HTTPError http_error_msg)
  else Return tt.

End Requests.
Export Requests.

Module OpenAI.

(** [AzureOpenAI(api_key=..., azure_endpoint=..., api_version=...)]: the
    client object keeps the three keyword arguments. *)
Record AzureOpenAI : Type := {
  api_key : string;
  azure_endpoint : string;
  api_version : string;
}.

(** The keyword arguments of [client.chat.completions.create]. *)
Record create_kwargs : Type := {
  model : string;
  messages : pyval;
  temperature : float;
}.

(** The typed objects of the SDK's answer: [ChatCompletion.choices] is a
    list of [Choice], and [ChatCompletionMessage.content] is an optional
    [str]. *)
Record ChatCompletionMessage : Type := { content : option string }.
Record Choice : Type := { message : ChatCompletionMessage }.
Record ChatCompletion : Type := { choices : list Choice }.

End OpenAI.
Export OpenAI.

(** What the script does to the outside, in the order it does it. *)
Inductive event : Type :=
| EvPrint (line : string)
| EvInput (prompt : string)
| EvParserError (msg : string)
| EvPost (req : http_request)
| EvAzureOpenAI (client : AzureOpenAI)
| EvCreate (client : AzureOpenAI) (kw : create_kwargs).

(** The events that put a request on the network. *)
Definition is_network_call (ev : event) : bool :=
  match ev with
  | EvPost _ | EvCreate _ _ => true
  | _ => false
  end.

Definition network_calls (tr : list event) : list event :=
  filter (fun ev => is_network_call ev = true) tr.

(** What the outside answers: the process environment [os.environ], whether
    the [openai] package can be imported, the line that [input] reads (None
    at end of input), the exception, if any, with which the constructor
    [AzureOpenAI(...)] refuses its arguments, and the outcome of each
    request: the response, or the exception of the transport. *)
Record World : Type := {
  environ : gmap string string;
  openai_installed : bool;
  stdin_line : option string;
  http_post : http_request -> result Response;
  azure_init : AzureOpenAI -> option exn;
  azure_create : AzureOpenAI -> create_kwargs -> result ChatCompletion;
}.

(** ** Computations: a trace of events and an exception or a value *)

Definition M (A : Type) : Type := list event -> result A * list event.

Definition ret {A : Type} (a : A) : M A := fun tr => (Return a, tr).

Definition raise {A : Type} (e : exn) : M A := fun tr => (Raise e, tr).

Definition bind {A B : Type} (m : M A) (f : A -> M B) : M B :=
  fun tr =>
    match m tr with
    | (Return a, tr') => f a tr'
    | (Raise e, tr') => (Raise e, tr')
    end.

Definition lift {A : Type} (r : result A) : M A := fun tr => (r, tr).

Definition emit (ev : event) : M unit := fun tr => (Return tt, tr ++ [ev]).

(** [try: body  except requests.exceptions.RequestException as e: handler] *)
Definition try_except_RequestException {A : Type}
    (body : M A) (handler : requests_class -> string -> M A) : M A :=
  fun tr =>
    match body tr with
    | (Return a, tr') => (Return a, tr')
    | (Raise (RequestException c msg), tr') => handler c msg tr'
    | (Raise e, tr') => (Raise e, tr')
    end.

Declare Scope py_scope.
Delimit Scope py_scope with py.
Notation "x <- m ;; k" := (bind m (fun x => k))
  (at level 100, m at next level, right associativity) : py_scope.
Notation "m ;;; k" := (bind m (fun _ => k))
  (at level 100, right associativity) : py_scope.
Local Open Scope py_scope.

(** The calls to the outside. *)

Definition print (line : string) : M unit := emit (EvPrint line).

Definition input (w : World) (prompt : string) : M string :=
  emit (EvInput prompt) ;;;
  match stdin_line w with
  | Some line => ret line
  | None => raise EOFError
  end.

Definition requests_post (w : World) (u : string)
    (headers : list (string * string)) (data : pyval) : M Response :=
  let req := {| req_method := "POST"; req_url := u;
                req_headers := headers; req_json := data |} in
  emit (EvPost req) ;;; lift (http_post w req).

(** [os.environ[name]] *)
Definition environ_getitem (w : World) (name : string) : M string :=
  match environ w !! name with
  | Some v => ret v
  | None => raise (KeyError (KStr name))
  end.

(** [os.environ.get(name, default)] *)
Definition environ_get (w : World) (name dflt : string) : string :=
  default dflt (environ w !! name).

(** [AzureOpenAI(api_key=k, azure_endpoint=e, api_version=v)]: the
    constructor validates its arguments and may raise; it sends nothing. *)
Definition new_AzureOpenAI (w : World) (k e v : string) : M AzureOpenAI :=
  let client := {| api_key := k; azure_endpoint := e; api_version := v |} in
  emit (EvAzureOpenAI client) ;;;
  match azure_init w client with
  | Some err => raise err
  | None => ret client
  end.

Definition chat_completions_create (w : World) (client : AzureOpenAI)
    (kw : create_kwargs) : M ChatCompletion :=
  emit (EvCreate client kw) ;;; lift (azure_create w client kw).

(** ** The script *)

(** [get_chat_response(api_key, user_input)] *)
Definition get_chat_response (w : World) (api_key user_input : string)
    : M pyval :=
  let headers :=
    [("Authorization", "Bearer " +:+ api_key);
     ("Content-Type", "application/json")] in
  let data :=
    PDict
      [("model", PStr "sarvam-m");
       ("messages",
        PList
          [PDict [("role", PStr "system");
                  ("content", PStr "You are a helpful assistant.")];
           PDict [("role", PStr "user"); ("content", PStr user_input)]]);
       ("temperature", PFloat 0.7)] in
  response <-
    requests_post w "https://api.sarvam.ai/v1/chat/completions" headers data ;;
  lift (raise_for_status response) ;;;
  body <- lift (json response) ;;
  cs <- lift (getitem body (KStr "choices")) ;;
  c <- lift (getitem cs (KInt 0)) ;;
  m <- lift (getitem c (KStr "message")) ;;
  lift (getitem m (KStr "content")).

(** [get_chat_response_azure(user_input)] *)
Definition get_chat_response_azure (w : World) (user_input : string)
    : M pyval :=
  (if openai_installed w then ret tt
   else raise (ImportError "Install the openai package: pip install openai")) ;;;
  k <- environ_getitem w "AZURE_OPENAI_API_KEY" ;;
  e <- environ_getitem w "AZURE_OPENAI_ENDPOINT" ;;
  client <-
    new_AzureOpenAI w k e
      (environ_get w "AZURE_OPENAI_API_VERSION" "2024-12-01-preview") ;;
  deployment <- environ_getitem w "AZURE_OPENAI_DEPLOYMENT" ;;
  response <-
    chat_completions_create w client
      {| model := deployment;
         messages :=
           PList
             [PDict [("role", PStr "system");
                     ("content", PStr "You are a helpful assistant.")];
              PDict [("role", PStr "user"); ("content", PStr user_input)]];
         temperature := 0.7 |} ;;
  match seq_index (choices response) 0 with
  | Some c =>
      ret match content (message c) with
          | Some s => PStr s
          | None => PNone
          end
  | None => raise IndexError
  end.

(** The parsed command line: [args.api_key] is None without [--api-key],
    [args.use_azure] is the [--use-azure] flag. *)
Record Namespace : Type := {
  args_api_key : option string;
  use_azure : bool;
}.

(** [parser.error(msg)]: reports the usage error and exits with status 2;
    it never returns. *)
Definition parser_error {A : Type} (msg : string) : M A :=
  emit (EvParserError msg) ;;; raise (SystemExit 2).

Section Main.

(** [repr] of a float, a list or a dict, which the script never inspects. *)
Variable repr : pyval -> string.

(** [str(v)], as the f-string of [main] formats the reply. *)
Definition str (v : pyval) : string :=
  match v with
  | PStr s => s
  | PNone => "None"
  | PBool true => "True"
  | PBool false => "False"
  | PInt n => pretty n
  | PFloat _ | PList _ | PDict _ => repr v
  end.

(** [main()], after [parser.parse_args()] has returned [args]. *)
Definition main (w : World) (args : Namespace) : M unit :=
  print "Chatbot initialized. Enter your question." ;;;
  line <- input w "You: " ;;
  let user_input := strip line in
  if str_truthy user_input then
    try_except_RequestException
      (bot_response <-
         (if use_azure args then get_chat_response_azure w user_input
          else
            match args_api_key args with
            | Some k =>
                if str_truthy k then get_chat_response w k user_input
                else parser_error
                       "--api-key is required when not using --use-azure"
            | None =>
                parser_error
                  "--api-key is required when not using --use-azure"
            end) ;;
       print ("Bot: " +:+ str bot_response))
      (fun _ msg => print ("An error occurred: " +:+ msg))
  else ret tt.

End Main.

(** ** Reading requests and replies *)

(** The [messages] and [temperature] that a network call carries: keys of
    the JSON body of a POST, keyword arguments of the SDK call. *)
Definition sent_messages (ev : event) : option pyval :=
  match ev with
  | EvPost req =>
      match req_json req with
      | PDict kvs => dict_lookup "messages" kvs
      | _ => None
      end
  | EvCreate _ kw => Some (messages kw)
  | _ => None
  end.

Definition sent_temperature (ev : event) : option pyval :=
  match ev with
  | EvPost req =>
      match req_json req with
      | PDict kvs => dict_lookup "temperature" kvs
      | _ => None
      end
  | EvCreate _ kw => Some (PFloat (temperature kw))
  | _ => None
  end.

(** The conversation the specification asks for: a system message with the
    fixed content, then one user message with the user's text. *)
Definition conversation (userMessage : string) : pyval :=
  PList
    [PDict [("role", PStr "system");
            ("content", PStr "You are a helpful assistant.")];
     PDict [("role", PStr "user"); ("content", PStr userMessage)]].

(** The lines written by [print]. *)
Definition printed (tr : list event) : list string :=
  omap (fun ev => match ev with EvPrint l => Some l | _ => None end) tr.

(** The path [choices[0].message.content] read on a decoded JSON document:
    [field] is a member of an object, the first element that of a non-empty
    array. *)
Definition field (name : string) (obj : pyval) : option pyval :=
  match obj with
  | PDict kvs => dict_lookup name kvs
  | _ => None
  end.

Definition first_element (obj : pyval) : option pyval :=
  match obj with
  | PList (x :: _) => Some x
  | _ => None
  end.

Definition choices_0_message_content (body : pyval) : option pyval :=
  cs ← field "choices" body;
  c ← first_element cs;
  m ← field "message" c;
  field "content" m.

(** The failures of a subscript. *)
Definition is_lookup_failure (e : exn) : bool :=
  match e with
  | KeyError _ | IndexError | TypeError => true
  | _ => false
  end.

(** ** Example worlds *)

Definition sarvam_url : string := "https://api.sarvam.ai/v1/chat/completions".

(** An endpoint that answers every POST with the given status and decoded
    body; no Azure variable is set. *)
Definition mock_direct (status : Z) (why : string) (body : result pyval)
    (line : string) : World :=
  {| environ := ∅;
     openai_installed := true;
     stdin_line := Some line;
     http_post := fun _ =>
       Return {| status_code := status; reason := why; url := sarvam_url;
                 json := body |};
     azure_init := fun _ => None;
     azure_create := fun _ _ => Raise (OpenAIError "Connection error.") |}.

(** An endpoint that cannot be reached. *)
Definition mock_unreachable (line : string) : World :=
  {| environ := ∅;
     openai_installed := true;
     stdin_line := Some line;
     http_post := fun _ =>
       Raise (RequestException ConnectionError "Connection refused");
     azure_init := fun _ => None;
     azure_create := fun _ _ => Raise (OpenAIError "Connection error.") |}.

(** An Azure deployment that answers every call with the given choices. *)
Definition mock_azure (env : gmap string string) (cs : list Choice)
    (line : string) : World :=
  {| environ := env;
     openai_installed := true;
     stdin_line := Some line;
     http_post := fun _ =>
       Raise (RequestException ConnectionError "Connection refused");
     azure_init := fun _ => None;
     azure_create := fun _ _ => Return {| choices := cs |} |}.

(** [{"choices":[{"message":{"content":"hello"}}]}] *)
Definition hello_body : pyval :=
  PDict [("choices",
          PList [PDict [("message", PDict [("content", PStr "hello")])]])].

(** [{"choices":[]}] *)
Definition empty_choices_body : pyval := PDict [("choices", PList [])].

Definition azure_env_full : gmap string string :=
  <["AZURE_OPENAI_API_KEY" := "secret"]>
    (<["AZURE_OPENAI_ENDPOINT" := "https://example.openai.azure.com"]>
       (<["AZURE_OPENAI_DEPLOYMENT" := "gpt-4o"]> ∅)).

Definition azure_env_versioned : gmap string string :=
  <["AZURE_OPENAI_API_VERSION" := "2024-06-01"]> azure_env_full.

Definition azure_env_no_deployment : gmap string string :=
  <["AZURE_OPENAI_API_KEY" := "secret"]>
    (<["AZURE_OPENAI_ENDPOINT" := "https://example.openai.azure.com"]> ∅).

Definition direct_args (k : string) : Namespace :=
  {| args_api_key := Some k; use_azure := false |}.

Definition azure_args : Namespace :=
  {| args_api_key := None; use_azure := true |}.

Definition plain_repr (v : pyval) : string := "<object>".

(** ** Reading the typed line and the user message *)

(** Every character of the string is whitespace for [str.isspace]. *)
Fixpoint all_space (s : string) : bool :=
  match s with
  | EmptyString => true
  | String c s' => isspace c && all_space s'
  end.

Definition first_char (s : string) : option Ascii.ascii :=
  match s with
  | EmptyString => None
  | String c _ => Some c
  end.

Fixpoint last_char (s : string) : option Ascii.ascii :=
  match s with
  | EmptyString => None
  | String c EmptyString => Some c
  | String _ s' => last_char s'
  end.

(** The content of the user message of a network call:
    [messages[1]["content"]]. *)
Definition sent_user_content (ev : event) : option pyval :=
  match sent_messages ev with
  | Some msgs =>
      match getitem msgs (KInt 1) with
      | Return m =>
          match getitem m (KStr "content") with
          | Return v => Some v
          | Raise _ => None
          end
      | Raise _ => None
      end
  | None => None
  end.

(** More example worlds: an Azure deployment whose SDK call fails, and a
    machine without the [openai] package. *)
Definition mock_azure_failing (env : gmap string string) (line : string)
    : World :=
  {| environ := env;
     openai_installed := true;
     stdin_line := Some line;
     http_post := fun _ =>
       Raise (RequestException ConnectionError "Connection refused");
     azure_init := fun _ => None;
     azure_create := fun _ _ => Raise (OpenAIError "Connection error.") |}.

Definition mock_no_openai (env : gmap string string) (line : string)
    : World :=
  {| environ := env;
     openai_installed := false;
     stdin_line := Some line;
     http_post := fun _ =>
       Raise (RequestException ConnectionError "Connection refused");
     azure_init := fun _ => None;
     azure_create := fun _ _ => Raise (OpenAIError "Connection error.") |}.

(** A machine whose SDK constructor refuses the credentials. *)
Definition mock_azure_rejecting (env : gmap string string) (line : string)
    : World :=
  {| environ := env;
     openai_installed := true;
     stdin_line := Some line;
     http_post := fun _ =>
       Raise (RequestException ConnectionError "Connection refused");
     azure_init := fun _ => Some (OpenAIError "Missing credentials.");
     azure_create := fun _ _ => Return {| choices := [] |} |}.

Definition azure_env_key_only : gmap string string :=
  <["AZURE_OPENAI_API_KEY" := "secret"]> ∅.

Definition no_args : Namespace :=
  {| args_api_key := None; use_azure := false |}.

(** ** Properties *)

(** *** Traces *)

Ltac run_script :=
  unfold get_chat_response, get_chat_response_azure, requests_post,
    chat_completions_create, new_AzureOpenAI, environ_getitem, parser_error,
    input, print, bind, emit, lift, ret, raise;
  simpl.

(** The Direct path issues its POST first, and nothing else, whatever the
    endpoint answers. *)
Lemma get_chat_response_trace (w : World) (k u : string) (tr : list event) :
  snd (get_chat_response w k u tr) =
  tr ++ [EvPost
           {| req_method := "POST";
              req_url := "https://api.sarvam.ai/v1/chat/completions";
              req_headers :=
                [("Authorization", "Bearer " +:+ k);
                 ("Content-Type", "application/json")];
              req_json :=
                PDict
                  [("model", PStr "sarvam-m");
                   ("messages",
                    PList
                      [PDict [("role", PStr "system");
                              ("content", PStr "You are a helpful assistant.")];
                       PDict [("role", PStr "user"); ("content", PStr u)]]);
                   ("temperature", PFloat 0.7)] |}].
Proof.
  run_script.
  repeat (case_match; simpl; try reflexivity).
Qed.

(** The Azure path emits nothing, or the construction of the client, or the
    construction of the client followed by one call of the SDK. *)
Lemma get_chat_response_azure_trace (w : World) (u : string) (tr : list event) :
  exists evs : list event,
    snd (get_chat_response_azure w u tr) = tr ++ evs /\
    (evs = [] \/
     exists k e : string,
       environ w !! "AZURE_OPENAI_API_KEY" = Some k /\
       environ w !! "AZURE_OPENAI_ENDPOINT" = Some e /\
       let client :=
         {| api_key := k; azure_endpoint := e;
            api_version :=
              environ_get w "AZURE_OPENAI_API_VERSION" "2024-12-01-preview" |} in
       (evs = [EvAzureOpenAI client] \/
        exists d : string,
          environ w !! "AZURE_OPENAI_DEPLOYMENT" = Some d /\
          evs =
            [EvAzureOpenAI client;
             EvCreate client
               {| model := d;
                  messages :=
                    PList
                      [PDict [("role", PStr "system");
                              ("content", PStr "You are a helpful assistant.")];
                       PDict [("role", PStr "user"); ("content", PStr u)]];
                  temperature := 0.7 |}])).
Proof.
  run_script.
  destruct (openai_installed w); simpl;
    [| exists []; rewrite app_nil_r; auto].
  destruct (environ w !! "AZURE_OPENAI_API_KEY") as [k|] eqn:Hk; simpl;
    [| exists []; rewrite app_nil_r; auto].
  destruct (environ w !! "AZURE_OPENAI_ENDPOINT") as [e|] eqn:He; simpl;
    [| exists []; rewrite app_nil_r; auto].
  destruct (azure_init w _) as [err|]; simpl.
  { eexists; split;
      [| right; exists k, e; split; [done|]; split; [done|];
         left; reflexivity].
    reflexivity. }
  destruct (environ w !! "AZURE_OPENAI_DEPLOYMENT") as [d|] eqn:Hd; simpl.
  - eexists; split;
      [| right; exists k, e; split; [done|]; split; [done|];
         right; exists d; split; [done | reflexivity]].
    repeat (case_match; simpl); rewrite <- app_assoc; reflexivity.
  - eexists; split;
      [| right; exists k, e; split; [done|]; split; [done|];
         left; reflexivity].
    reflexivity.
Qed.

(** With the package installed, the three required variables set and a
    constructor that accepts them, the Azure path constructs the client and
    calls the SDK once. *)
Lemma get_chat_response_azure_calls (w : World) (u k e d : string)
    (tr : list event) :
  openai_installed w = true ->
  environ w !! "AZURE_OPENAI_API_KEY" = Some k ->
  environ w !! "AZURE_OPENAI_ENDPOINT" = Some e ->
  environ w !! "AZURE_OPENAI_DEPLOYMENT" = Some d ->
  azure_init w
    {| api_key := k; azure_endpoint := e;
       api_version :=
         environ_get w "AZURE_OPENAI_API_VERSION" "2024-12-01-preview" |}
  = None ->
  exists (client : AzureOpenAI) (kw : create_kwargs),
    snd (get_chat_response_azure w u tr) =
    tr ++ [EvAzureOpenAI client; EvCreate client kw] /\
    api_key client = k /\ azure_endpoint client = e /\ model kw = d.
Proof.
  intros Hi Hk He Hd Hinit. run_script. rewrite Hi, Hk, He. simpl.
  rewrite Hinit. simpl. rewrite Hd. simpl.
  eexists _, _. split.
  - repeat (case_match; simpl); rewrite <- app_assoc; reflexivity.
  - simpl. auto.
Qed.

(** *** The request *)

(** C1. In the Direct path the body of the one POST, and in the AzureHosted
    path the arguments of every SDK call, carry a [messages] array of
    exactly two entries: role "system" with content "You are a helpful
    assistant.", then role "user" with content equal to the user message.
    This holds for every user message, the non-empty ones included. *)
Theorem messages_system_then_user (w : World) (userMessage : string)
    (tr : list event) :
  (forall k : string,
     exists req : http_request,
       snd (get_chat_response w k userMessage tr) = tr ++ [EvPost req] /\
       sent_messages (EvPost req) = Some (conversation userMessage)) /\
  (exists evs : list event,
     snd (get_chat_response_azure w userMessage tr) = tr ++ evs /\
     forall ev : event,
       ev ∈ evs -> is_network_call ev = true ->
       sent_messages ev = Some (conversation userMessage)).
Proof.
  split.
  - intros k. eexists. split; [apply get_chat_response_trace | reflexivity].
  - destruct (get_chat_response_azure_trace w userMessage tr)
      as (evs & Htr & Hshape).
    exists evs. split; [exact Htr |].
    intros ev Hin Hnet.
    destruct Hshape as [-> | (k & e & _ & _ & [-> | (d & _ & ->)])].
    + by apply elem_of_nil in Hin.
    + apply list_elem_of_singleton in Hin as ->. discriminate Hnet.
    + apply elem_of_cons in Hin as [-> | Hin]; [discriminate Hnet |].
      apply list_elem_of_singleton in Hin as ->. reflexivity.
Qed.

Lemma messages_system_then_user_witness :
  (exists req : http_request,
     snd (get_chat_response (mock_direct 200 "OK" (Return hello_body) "hi")
            "k" "hi" []) = [EvPost req] /\
     sent_messages (EvPost req) = Some (conversation "hi")) /\
  (exists (client : AzureOpenAI) (kw : create_kwargs),
     snd (get_chat_response_azure (mock_azure azure_env_full [] "hi") "hi" [])
     = [EvAzureOpenAI client; EvCreate client kw] /\
     sent_messages (EvCreate client kw) = Some (conversation "hi")).
Proof.
  destruct (messages_system_then_user
              (mock_direct 200 "OK" (Return hello_body) "hi") "hi" [])
    as [Hdirect _].
  destruct (messages_system_then_user
              (mock_azure azure_env_full [] "hi") "hi" [])
    as [_ (evs & Htr & Hall)].
  split.
  - exact (Hdirect "k").
  - vm_compute in Htr. subst evs. eexists _, _. split; [reflexivity |].
    apply Hall; [| reflexivity].
    apply elem_of_cons. right. apply elem_of_cons. left. reflexivity.
Defined.

(** C6. The temperature of every request is 0.7, whatever the input: in the
    body of the POST of the Direct path and in the arguments of every SDK
    call of the AzureHosted path. *)
Theorem temperature_fixed (w : World) (userMessage : string)
    (tr : list event) :
  (forall k : string,
     exists req : http_request,
       snd (get_chat_response w k userMessage tr) = tr ++ [EvPost req] /\
       sent_temperature (EvPost req) = Some (PFloat 0.7)) /\
  (exists evs : list event,
     snd (get_chat_response_azure w userMessage tr) = tr ++ evs /\
     forall ev : event,
       ev ∈ evs -> is_network_call ev = true ->
       sent_temperature ev = Some (PFloat 0.7)).
Proof.
  split.
  - intros k. eexists. split; [apply get_chat_response_trace | reflexivity].
  - destruct (get_chat_response_azure_trace w userMessage tr)
      as (evs & Htr & Hshape).
    exists evs. split; [exact Htr |].
    intros ev Hin Hnet.
    destruct Hshape as [-> | (k & e & _ & _ & [-> | (d & _ & ->)])].
    + by apply elem_of_nil in Hin.
    + apply list_elem_of_singleton in Hin as ->. discriminate Hnet.
    + apply elem_of_cons in Hin as [-> | Hin]; [discriminate Hnet |].
      apply list_elem_of_singleton in Hin as ->. reflexivity.
Qed.

Lemma temperature_fixed_witness :
  (exists req : http_request,
     snd (get_chat_response (mock_unreachable "hi") "k" "hi" [])
     = [EvPost req] /\
     sent_temperature (EvPost req) = Some (PFloat 0.7)) /\
  (exists (client : AzureOpenAI) (kw : create_kwargs),
     snd (get_chat_response_azure (mock_azure azure_env_versioned [] "hi")
            "hi" [])
     = [EvAzureOpenAI client; EvCreate client kw] /\
     sent_temperature (EvCreate client kw) = Some (PFloat 0.7)).
Proof.
  destruct (temperature_fixed (mock_unreachable "hi") "hi" [])
    as [Hdirect _].
  destruct (temperature_fixed (mock_azure azure_env_versioned [] "hi") "hi" [])
    as [_ (evs & Htr & Hall)].
  split.
  - exact (Hdirect "k").
  - vm_compute in Htr. subst evs. eexists _, _. split; [reflexivity |].
    apply Hall; [| reflexivity].
    apply elem_of_cons. right. apply elem_of_cons. left. reflexivity.
Defined.

(** C7. Every request of the Direct path is a POST to
    https://api.sarvam.ai/v1/chat/completions with the headers
    Authorization: Bearer <api-key> and Content-Type: application/json, and
    a body whose model is "sarvam-m". *)
Theorem direct_wire_contract (w : World) (api_key userMessage : string)
    (tr : list event) :
  exists req : http_request,
    snd (get_chat_response w api_key userMessage tr) = tr ++ [EvPost req] /\
    req_method req = "POST" /\
    req_url req = "https://api.sarvam.ai/v1/chat/completions" /\
    req_headers req =
      [("Authorization", "Bearer " +:+ api_key);
       ("Content-Type", "application/json")] /\
    getitem (req_json req) (KStr "model") = Return (PStr "sarvam-m").
Proof.
  eexists. split; [apply get_chat_response_trace |].
  repeat split.
Qed.

(** *** The reply *)

Lemma seq_index_0 {A : Type} (xs : list A) : seq_index xs 0 = head xs.
Proof. destruct xs as [| x xs]; reflexivity. Qed.

(** A subscript fails with [KeyError], [IndexError] or [TypeError] only. *)
Lemma getitem_failure (obj : pyval) (k : key) (e : exn) :
  getitem obj k = Raise e -> is_lookup_failure e = true.
Proof.
  destruct obj, k; simpl; intros H;
    repeat case_match; simplify_eq; reflexivity.
Qed.

(** A str subscript succeeds exactly on a member of an object. *)
Lemma getitem_KStr (obj : pyval) (name : string) (v : pyval) :
  getitem obj (KStr name) = Return v <-> field name obj = Some v.
Proof.
  destruct obj; simpl; try (split; discriminate).
  destruct (dict_lookup name kvs); split; congruence.
Qed.

(** The four subscripts of [get_chat_response] read the path
    [choices[0].message.content]: they return the value found there, and
    raise a lookup failure when the path is absent. *)
Lemma subscripts_read_path (body : pyval) :
  match choices_0_message_content body with
  | Some v =>
      exists cs c m : pyval,
        getitem body (KStr "choices") = Return cs /\
        getitem cs (KInt 0) = Return c /\
        getitem c (KStr "message") = Return m /\
        getitem m (KStr "content") = Return v
  | None =>
      forall cs c m v : pyval,
        getitem body (KStr "choices") = Return cs ->
        getitem cs (KInt 0) = Return c ->
        getitem c (KStr "message") = Return m ->
        getitem m (KStr "content") = Return v -> False
  end.
Proof.
  unfold choices_0_message_content.
  destruct (field "choices" body) as [cs|] eqn:Hcs; simpl.
  2: { intros cs c m v H. apply getitem_KStr in H. congruence. }
  destruct (first_element cs) as [c|] eqn:Hc; simpl.
  2: { intros cs' c m v H1 H2 H3 _.
       apply getitem_KStr in H1, H3. simplify_eq.
       destruct cs as [| | | | s | [| x xs] |]; simpl in *; try discriminate.
       rewrite seq_index_0 in H2.
       destruct (head (String.list_ascii_of_string s)); by simplify_eq. }
  assert (getitem cs (KInt 0) = Return c) as Hget.
  { destruct cs as [| | | | | [| x xs] |]; simpl in *; congruence. }
  destruct (field "message" c) as [m|] eqn:Hm; simpl.
  2: { intros cs' c' m v H1 H2 H3 _.
       apply getitem_KStr in H1, H3. congruence. }
  destruct (field "content" m) as [v|] eqn:Hv; simpl.
  - exists cs, c, m. by rewrite !getitem_KStr.
  - intros cs' c' m' v H1 H2 H3 H4.
    apply getitem_KStr in H1, H3, H4. congruence.
Qed.

(** What [get_chat_response] returns, from the answer to its request. *)
Lemma get_chat_response_answer (w : World) (k u : string) (tr : list event)
    (req : http_request) :
  snd (get_chat_response w k u tr) = tr ++ [EvPost req] ->
  fst (get_chat_response w k u tr) =
  match http_post w req with
  | Raise e => Raise e
  | Return response =>
      match raise_for_status response with
      | Raise e => Raise e
      | Return _ =>
          match json response with
          | Raise e => Raise e
          | Return body =>
              match getitem body (KStr "choices") with
              | Raise e => Raise e
              | Return cs =>
                  match getitem cs (KInt 0) with
                  | Raise e => Raise e
                  | Return c =>
                      match getitem c (KStr "message") with
                      | Raise e => Raise e
                      | Return m => getitem m (KStr "content")
                      end
                  end
              end
          end
      end
  end.
Proof.
  rewrite get_chat_response_trace. intros Hreq.
  apply app_inj_tail in Hreq as [_ Hreq]. injection Hreq as <-.
  unfold get_chat_response, requests_post, bind, emit, lift. simpl.
  repeat (case_match; simpl; try reflexivity).
Qed.

(** What [get_chat_response_azure] returns, from the answer to its call. *)
Lemma get_chat_response_azure_answer (w : World) (u : string)
    (tr : list event) (client : AzureOpenAI) (kw : create_kwargs) :
  snd (get_chat_response_azure w u tr) =
  tr ++ [EvAzureOpenAI client; EvCreate client kw] ->
  fst (get_chat_response_azure w u tr) =
  match azure_create w client kw with
  | Raise e => Raise e
  | Return response =>
      match head (choices response) with
      | Some c =>
          Return match content (message c) with
                 | Some s => PStr s
                 | None => PNone
                 end
      | None => Raise IndexError
      end
  end.
Proof.
  destruct (get_chat_response_azure_trace w u tr) as (evs & Htr & Hshape).
  rewrite Htr. intros Hevs. apply app_inv_head in Hevs. subst evs.
  destruct Hshape as [Hnil | (k & e & Hk & He & [Hone | (d & Hd & Htwo)])];
    [discriminate Hnil | discriminate Hone |].
  injection Htwo as Hclient _ Hkw. subst client kw.
  revert Htr. run_script.
  destruct (openai_installed w); simpl.
  2: { intros Htr. apply (f_equal length) in Htr.
       rewrite length_app in Htr. simpl in Htr. lia. }
  rewrite Hk, He. simpl.
  destruct (azure_init w _) as [refused |]; simpl.
  { intros Htr. apply (f_equal length) in Htr.
    rewrite !length_app in Htr. simpl in Htr. lia. }
  rewrite Hd. simpl. intros _.
  destruct (azure_create w _ _) as [response | err]; simpl; [| reflexivity].
  rewrite seq_index_0. destruct (head (choices response)); reflexivity.
Qed.

(** C2. On a successful response the Direct path returns exactly the value
    at [choices[0].message.content] of the decoded body of the response to
    the POST it issued, and the AzureHosted path the content of the message
    of the first choice of the answer to its SDK call; in particular a
    Direct endpoint that answers
    [{"choices":[{"message":{"content":"hello"}}]}] to the key "k" and the
    message "hi" yields the reply "hello". *)
Theorem reply_is_first_choice_content :
  (forall (w : World) (k u : string) (tr : list event),
     exists req : http_request,
       snd (get_chat_response w k u tr) = tr ++ [EvPost req] /\
       forall (response : Response) (body v : pyval),
         http_post w req = Return response ->
         raise_for_status response = Return tt ->
         json response = Return body ->
         choices_0_message_content body = Some v ->
         fst (get_chat_response w k u tr) = Return v) /\
  (forall (w : World) (u k e d : string) (tr : list event),
     openai_installed w = true ->
     environ w !! "AZURE_OPENAI_API_KEY" = Some k ->
     environ w !! "AZURE_OPENAI_ENDPOINT" = Some e ->
     environ w !! "AZURE_OPENAI_DEPLOYMENT" = Some d ->
     azure_init w
       {| api_key := k; azure_endpoint := e;
          api_version :=
            environ_get w "AZURE_OPENAI_API_VERSION" "2024-12-01-preview" |}
     = None ->
     exists (client : AzureOpenAI) (kw : create_kwargs),
       snd (get_chat_response_azure w u tr) =
       tr ++ [EvAzureOpenAI client; EvCreate client kw] /\
       forall (response : ChatCompletion) (c : Choice) (s : string),
         azure_create w client kw = Return response ->
         head (choices response) = Some c ->
         content (message c) = Some s ->
         fst (get_chat_response_azure w u tr) = Return (PStr s)) /\
  (forall line : string,
     fst (get_chat_response (mock_direct 200 "OK" (Return hello_body) line)
            "k" "hi" []) = Return (PStr "hello")).
Proof.
  split; [| split].
  - intros w k u tr. eexists. split; [apply get_chat_response_trace |].
    intros response body v Hpost Hok Hjson Hpath.
    rewrite (get_chat_response_answer w k u tr _
               (get_chat_response_trace w k u tr)).
    rewrite Hpost, Hok, Hjson.
    pose proof (subscripts_read_path body) as Hread.
    rewrite Hpath in Hread.
    destruct Hread as (cs & c & m & -> & -> & -> & ->). reflexivity.
  - intros w u k e d tr Hi Hk He Hd Hinit.
    destruct (get_chat_response_azure_calls w u k e d tr Hi Hk He Hd Hinit)
      as (client & kw & Htr & _).
    exists client, kw. split; [exact Htr |].
    intros response c s Hcreate Hhead Hcontent.
    rewrite (get_chat_response_azure_answer w u tr client kw Htr).
    by rewrite Hcreate, Hhead, Hcontent.
  - intros line. reflexivity.
Qed.

Lemma reply_is_first_choice_content_witness :
  fst (get_chat_response (mock_direct 200 "OK" (Return hello_body) "hi")
         "k" "hi" []) = Return (PStr "hello") /\
  fst (get_chat_response_azure
         (mock_azure azure_env_full
            [{| message := {| content := Some "hello" |} |}] "hi")
         "hi" []) = Return (PStr "hello").
Proof.
  destruct reply_is_first_choice_content as (Hdirect & Hazure & _).
  split.
  - destruct (Hdirect (mock_direct 200 "OK" (Return hello_body) "hi")
                "k" "hi" []) as (req & _ & Hreply).
    eapply Hreply; reflexivity.
  - destruct (Hazure
                (mock_azure azure_env_full
                   [{| message := {| content := Some "hello" |} |}] "hi")
                "hi" "secret" "https://example.openai.azure.com" "gpt-4o" []
                eq_refl eq_refl eq_refl eq_refl eq_refl)
      as (client & kw & _ & Hreply).
    eapply Hreply; reflexivity.
Defined.

(** C3. When the decoded body of a successful response lacks the path
    [choices[0].message.content], the Direct path fails: it raises a lookup
    failure (KeyError, IndexError or TypeError), which is not a
    RequestException; an empty [choices] array raises IndexError, in the
    Direct path and in the AzureHosted path alike. *)
Theorem missing_reply_fails :
  (forall (w : World) (k u : string) (tr : list event) (req : http_request)
          (response : Response) (body : pyval),
     snd (get_chat_response w k u tr) = tr ++ [EvPost req] ->
     http_post w req = Return response ->
     raise_for_status response = Return tt ->
     json response = Return body ->
     (choices_0_message_content body = None ->
      exists e : exn,
        fst (get_chat_response w k u tr) = Raise e /\
        is_lookup_failure e = true /\ is_RequestException e = false) /\
     (field "choices" body = Some (PList []) ->
      fst (get_chat_response w k u tr) = Raise IndexError)) /\
  (forall (w : World) (u : string) (tr : list event) (client : AzureOpenAI)
          (kw : create_kwargs) (response : ChatCompletion),
     snd (get_chat_response_azure w u tr) =
     tr ++ [EvAzureOpenAI client; EvCreate client kw] ->
     azure_create w client kw = Return response ->
     choices response = [] ->
     fst (get_chat_response_azure w u tr) = Raise IndexError).
Proof.
  split.
  - intros w k u tr req response body Htr Hpost Hok Hjson.
    rewrite (get_chat_response_answer w k u tr req Htr).
    rewrite Hpost, Hok, Hjson. split.
    + intros Hpath.
      pose proof (subscripts_read_path body) as Hread.
      rewrite Hpath in Hread.
      assert (forall (obj : pyval) (key : key) (e : exn),
                 getitem obj key = Raise e ->
                 is_lookup_failure e = true /\ is_RequestException e = false)
        as Hfail.
      { intros obj key e H. apply getitem_failure in H.
        destruct e; try discriminate H; auto. }
      destruct (getitem body (KStr "choices")) as [cs | e] eqn:H1;
        [| exists e; split; [reflexivity | by eapply Hfail]].
      destruct (getitem cs (KInt 0)) as [c | e] eqn:H2;
        [| exists e; split; [reflexivity | by eapply Hfail]].
      destruct (getitem c (KStr "message")) as [m | e] eqn:H3;
        [| exists e; split; [reflexivity | by eapply Hfail]].
      destruct (getitem m (KStr "content")) as [v | e] eqn:H4;
        [| exists e; split; [reflexivity | by eapply Hfail]].
      exfalso. eapply (Hread cs c m v); eauto.
    + intros Hchoices. apply getitem_KStr in Hchoices.
      rewrite Hchoices. reflexivity.
  - intros w u tr client kw response Htr Hcreate Hempty.
    rewrite (get_chat_response_azure_answer w u tr client kw Htr).
    by rewrite Hcreate, Hempty.
Qed.

Lemma missing_reply_fails_witness :
  fst (get_chat_response
         (mock_direct 200 "OK" (Return empty_choices_body) "hi")
         "k" "hi" []) = Raise IndexError /\
  (exists e : exn,
     fst (get_chat_response (mock_direct 200 "OK" (Return (PDict [])) "hi")
            "k" "hi" []) = Raise e /\
     is_lookup_failure e = true /\ is_RequestException e = false) /\
  fst (get_chat_response_azure (mock_azure azure_env_full [] "hi") "hi" [])
  = Raise IndexError.
Proof.
  destruct missing_reply_fails as (Hdirect & Hazure).
  split; [| split].
  - eapply (Hdirect (mock_direct 200 "OK" (Return empty_choices_body) "hi")
              "k" "hi" []); reflexivity.
  - eapply (Hdirect (mock_direct 200 "OK" (Return (PDict [])) "hi")
              "k" "hi" []); reflexivity.
  - eapply (Hazure (mock_azure azure_env_full [] "hi") "hi" []); reflexivity.
Defined.

(** *** Credentials of the AzureHosted path *)

Lemma network_calls_app (tr evs : list event) :
  network_calls (tr ++ evs) = network_calls tr ++ network_calls evs.
Proof. unfold network_calls. apply filter_app. Qed.

(** C4. In the AzureHosted path, when the API key, the endpoint or the
    deployment is absent from the environment (the API version is optional),
    the call fails before any request: it raises an exception and issues no
    network call.  The exception is the ImportError of the missing package,
    the KeyError of an absent variable, or, when only the deployment is
    absent, possibly the exception with which the constructor of the client
    refused the key and the endpoint. *)
Theorem missing_azure_credential_fails (w : World) (u : string)
    (tr : list event) :
  environ w !! "AZURE_OPENAI_API_KEY" = None \/
  environ w !! "AZURE_OPENAI_ENDPOINT" = None \/
  environ w !! "AZURE_OPENAI_DEPLOYMENT" = None ->
  (exists e : exn,
     fst (get_chat_response_azure w u tr) = Raise e /\
     (e = ImportError "Install the openai package: pip install openai" \/
      (exists name : string,
         name ∈ ["AZURE_OPENAI_API_KEY"; "AZURE_OPENAI_ENDPOINT";
                 "AZURE_OPENAI_DEPLOYMENT"] /\
         environ w !! name = None /\ e = KeyError (KStr name)) \/
      (exists client : AzureOpenAI, azure_init w client = Some e))) /\
  network_calls (snd (get_chat_response_azure w u tr)) = network_calls tr.
Proof.
  intros Habsent. run_script.
  destruct (openai_installed w); simpl;
    [| split; [eexists; split; [reflexivity | by left] | done]].
  destruct (environ w !! "AZURE_OPENAI_API_KEY") as [k|] eqn:Hk; simpl.
  2: { split; [| done]. eexists. split; [reflexivity |].
       right. left. exists "AZURE_OPENAI_API_KEY".
       split; [by repeat constructor | done]. }
  destruct (environ w !! "AZURE_OPENAI_ENDPOINT") as [e|] eqn:He; simpl.
  2: { split; [| done]. eexists. split; [reflexivity |].
       right. left. exists "AZURE_OPENAI_ENDPOINT".
       split; [by repeat constructor | done]. }
  destruct (azure_init w _) as [refused |] eqn:Hinit; simpl.
  { split.
    - exists refused. split; [reflexivity |]. right. right. eauto.
    - rewrite network_calls_app. simpl. apply app_nil_r. }
  destruct (environ w !! "AZURE_OPENAI_DEPLOYMENT") as [d|] eqn:Hd; simpl.
  { destruct Habsent as [? | [? | ?]]; discriminate. }
  split.
  - eexists. split; [reflexivity |].
    right. left. exists "AZURE_OPENAI_DEPLOYMENT".
    split; [by repeat constructor | done].
  - rewrite network_calls_app. simpl. apply app_nil_r.
Qed.

Lemma missing_azure_credential_fails_witness :
  fst (get_chat_response_azure
         (mock_azure azure_env_no_deployment [] "hi") "hi" [])
  = Raise (KeyError (KStr "AZURE_OPENAI_DEPLOYMENT")) /\
  network_calls
    (snd (get_chat_response_azure
            (mock_azure azure_env_no_deployment [] "hi") "hi" [])) = [] /\
  network_calls
    (snd (get_chat_response_azure
            (mock_azure_rejecting azure_env_no_deployment "hi") "hi" []))
  = [].
Proof.
  destruct (missing_azure_credential_fails
              (mock_azure azure_env_no_deployment [] "hi") "hi" [])
    as [_ Hcalls]; [right; right; reflexivity |].
  destruct (missing_azure_credential_fails
              (mock_azure_rejecting azure_env_no_deployment "hi") "hi" [])
    as [_ Hrefused]; [right; right; reflexivity |].
  split; [reflexivity |]. split; [exact Hcalls | exact Hrefused].
Defined.

(** C8. The client of the AzureHosted path is constructed with the value of
    AZURE_OPENAI_API_VERSION when the variable is set, and with the fixed
    string "2024-12-01-preview" when it is absent; the SDK call goes through
    that client. *)
Theorem azure_api_version_default (w : World) (u k e : string)
    (tr : list event) :
  openai_installed w = true ->
  environ w !! "AZURE_OPENAI_API_KEY" = Some k ->
  environ w !! "AZURE_OPENAI_ENDPOINT" = Some e ->
  exists (client : AzureOpenAI) (rest : list event),
    snd (get_chat_response_azure w u tr) =
    tr ++ EvAzureOpenAI client :: rest /\
    api_key client = k /\ azure_endpoint client = e /\
    (environ w !! "AZURE_OPENAI_API_VERSION" = None ->
     api_version client = "2024-12-01-preview") /\
    (forall v : string,
       environ w !! "AZURE_OPENAI_API_VERSION" = Some v ->
       api_version client = v) /\
    (forall (c : AzureOpenAI) (kw : create_kwargs),
       EvCreate c kw ∈ rest -> c = client).
Proof.
  intros Hi Hk He.
  exists {| api_key := k; azure_endpoint := e;
            api_version :=
              environ_get w "AZURE_OPENAI_API_VERSION" "2024-12-01-preview" |}.
  assert (exists rest : list event,
            snd (get_chat_response_azure w u tr) =
            tr ++ EvAzureOpenAI
                    {| api_key := k; azure_endpoint := e;
                       api_version :=
                         environ_get w "AZURE_OPENAI_API_VERSION"
                           "2024-12-01-preview" |} :: rest /\
            forall (c : AzureOpenAI) (kw : create_kwargs),
              EvCreate c kw ∈ rest ->
              c = {| api_key := k; azure_endpoint := e;
                     api_version :=
                       environ_get w "AZURE_OPENAI_API_VERSION"
                         "2024-12-01-preview" |}) as (rest & Htr & Hrest).
  { run_script. rewrite Hi, Hk, He. simpl.
    destruct (azure_init w _) as [refused |]; simpl.
    { exists []. split; [reflexivity |].
      intros c kw Hin. by apply elem_of_nil in Hin. }
    destruct (environ w !! "AZURE_OPENAI_DEPLOYMENT") as [d|]; simpl.
    - eexists. split.
      + repeat (case_match; simpl); rewrite <- app_assoc; reflexivity.
      + intros c kw Hin. apply list_elem_of_singleton in Hin.
        by injection Hin as -> _.
    - exists []. split; [reflexivity |].
      intros c kw Hin. by apply elem_of_nil in Hin. }
  exists rest. split; [exact Htr |]. simpl.
  unfold environ_get.
  repeat split; try done.
  - by intros ->.
  - by intros v ->.
Qed.

Lemma azure_api_version_default_witness :
  (exists rest : list event,
     snd (get_chat_response_azure (mock_azure azure_env_full [] "hi") "hi" [])
     = EvAzureOpenAI
         {| api_key := "secret";
            azure_endpoint := "https://example.openai.azure.com";
            api_version := "2024-12-01-preview" |} :: rest) /\
  (exists rest : list event,
     snd (get_chat_response_azure
            (mock_azure azure_env_versioned [] "hi") "hi" [])
     = EvAzureOpenAI
         {| api_key := "secret";
            azure_endpoint := "https://example.openai.azure.com";
            api_version := "2024-06-01" |} :: rest).
Proof.
  split.
  - destruct (azure_api_version_default
                (mock_azure azure_env_full [] "hi") "hi" "secret"
                "https://example.openai.azure.com" [])
      as ([k e v] & rest & Htr & Hk & He & Hdefault & _);
      [reflexivity | reflexivity | reflexivity |].
    simpl in Hk, He, Hdefault. subst k e. rewrite Hdefault in Htr.
    + exists rest. exact Htr.
    + reflexivity.
  - destruct (azure_api_version_default
                (mock_azure azure_env_versioned [] "hi") "hi" "secret"
                "https://example.openai.azure.com" [])
      as ([k e v] & rest & Htr & Hk & He & _ & Hset & _);
      [reflexivity | reflexivity | reflexivity |].
    simpl in Hk, He, Hset. subst k e.
    rewrite (Hset "2024-06-01") in Htr.
    + exists rest. exact Htr.
    + reflexivity.
Defined.

(** *** The command line *)

Section MainProperties.

Variable repr : pyval -> string.

(** Without a non-blank line [main] stops after the prompt. *)
Lemma main_blank (w : World) (args : Namespace) (line : string) :
  stdin_line w = Some line ->
  strip line = "" ->
  main repr w args [] =
  (Return tt,
   [EvPrint "Chatbot initialized. Enter your question."; EvInput "You: "]).
Proof.
  intros Hline Hblank. unfold main. run_script.
  rewrite Hline. simpl. rewrite Hblank. reflexivity.
Qed.

(** With a non-blank line and an API key, [main] runs the Direct path on the
    stripped line, prints the reply, and turns a RequestException into one
    printed line; any other exception leaves [main]. *)
Lemma main_direct (w : World) (args : Namespace) (line k : string) :
  stdin_line w = Some line ->
  str_truthy (strip line) = true ->
  use_azure args = false ->
  args_api_key args = Some k ->
  str_truthy k = true ->
  main repr w args [] =
  match
    get_chat_response w k (strip line)
      [EvPrint "Chatbot initialized. Enter your question."; EvInput "You: "]
  with
  | (Return v, tr) => (Return tt, tr ++ [EvPrint ("Bot: " +:+ str repr v)])
  | (Raise (RequestException c msg), tr) =>
      (Return tt, tr ++ [EvPrint ("An error occurred: " +:+ msg)])
  | (Raise e, tr) => (Raise e, tr)
  end.
Proof.
  intros Hline Hu Hazure Hkey Hk.
  unfold main, try_except_RequestException, input, print, bind, emit, ret.
  simpl. rewrite Hline. simpl. rewrite Hu, Hazure, Hkey, Hk.
  destruct (get_chat_response w k (strip line) _) as [[v | e] tr];
    [reflexivity | destruct e; reflexivity].
Qed.

(** With a non-blank line and [--use-azure], [main] runs the AzureHosted
    path on the stripped line in the same way. *)
Lemma main_azure (w : World) (args : Namespace) (line : string) :
  stdin_line w = Some line ->
  str_truthy (strip line) = true ->
  use_azure args = true ->
  main repr w args [] =
  match
    get_chat_response_azure w (strip line)
      [EvPrint "Chatbot initialized. Enter your question."; EvInput "You: "]
  with
  | (Return v, tr) => (Return tt, tr ++ [EvPrint ("Bot: " +:+ str repr v)])
  | (Raise (RequestException c msg), tr) =>
      (Return tt, tr ++ [EvPrint ("An error occurred: " +:+ msg)])
  | (Raise e, tr) => (Raise e, tr)
  end.
Proof.
  intros Hline Hu Hazure.
  unfold main, try_except_RequestException, input, print, bind, emit, ret.
  simpl. rewrite Hline. simpl. rewrite Hu, Hazure.
  destruct (get_chat_response_azure w (strip line) _) as [[v | e] tr];
    [reflexivity | destruct e; reflexivity].
Qed.

(** Without an API key and without [--use-azure], [main] exits through
    [parser.error] before any request. *)
Lemma main_no_key (w : World) (args : Namespace) (line : string) :
  stdin_line w = Some line ->
  str_truthy (strip line) = true ->
  use_azure args = false ->
  args_api_key args = None \/ args_api_key args = Some "" ->
  main repr w args [] =
  (Raise (SystemExit 2),
   [EvPrint "Chatbot initialized. Enter your question."; EvInput "You: ";
    EvParserError "--api-key is required when not using --use-azure"]).
Proof.
  intros Hline Hu Hazure Hkey.
  unfold main, try_except_RequestException, parser_error, input, print,
    bind, emit, ret, raise.
  simpl. rewrite Hline. simpl. rewrite Hu, Hazure.
  destruct Hkey as [-> | ->]; reflexivity.
Qed.

(** At end of input [main] leaves with EOFError after the prompt. *)
Lemma main_eof (w : World) (args : Namespace) :
  stdin_line w = None ->
  main repr w args [] =
  (Raise EOFError,
   [EvPrint "Chatbot initialized. Enter your question."; EvInput "You: "]).
Proof.
  intros Hline. unfold main. run_script. rewrite Hline. reflexivity.
Qed.

(** The network calls of [main] are those of the path it runs. *)
Lemma main_network_calls (w : World) (args : Namespace) :
  network_calls (snd (main repr w args [])) =
  match stdin_line w with
  | None => []
  | Some line =>
      if str_truthy (strip line) then
        if use_azure args then
          network_calls
            (snd (get_chat_response_azure w (strip line)
                    [EvPrint "Chatbot initialized. Enter your question.";
                     EvInput "You: "]))
        else
          match args_api_key args with
          | None => []
          | Some k =>
              if str_truthy k then
                network_calls
                  (snd (get_chat_response w k (strip line)
                          [EvPrint "Chatbot initialized. Enter your question.";
                           EvInput "You: "]))
              else []
          end
      else []
  end.
Proof.
  destruct (stdin_line w) as [line |] eqn:Hline;
    [| by rewrite main_eof].
  destruct (str_truthy (strip line)) eqn:Hu.
  2: { rewrite (main_blank w args line Hline); [reflexivity |].
       by destruct (strip line). }
  destruct (use_azure args) eqn:Hazure.
  { rewrite (main_azure w args line Hline Hu Hazure).
    destruct (get_chat_response_azure w (strip line) _) as [[v | e] tr];
      [| destruct e]; simpl; rewrite ?network_calls_app, ?app_nil_r;
      reflexivity. }
  destruct (args_api_key args) as [k |] eqn:Hkey;
    [| rewrite (main_no_key w args line Hline Hu Hazure); auto].
  destruct (str_truthy k) eqn:Hk.
  2: { destruct k; [| discriminate Hk].
       rewrite (main_no_key w args line Hline Hu Hazure); auto. }
  rewrite (main_direct w args line k Hline Hu Hazure Hkey Hk).
  destruct (get_chat_response w k (strip line) _) as [[v | e] tr];
    [| destruct e]; simpl; rewrite ?network_calls_app, ?app_nil_r;
    reflexivity.
Qed.

End MainProperties.

Lemma elem_of_network_calls (ev : event) (tr : list event) :
  ev ∈ network_calls tr <-> ev ∈ tr /\ is_network_call ev = true.
Proof.
  unfold network_calls. rewrite list_elem_of_filter. tauto.
Qed.

(** The network calls of the Direct path: its one POST. *)
Lemma get_chat_response_network_calls (w : World) (k u : string)
    (tr : list event) :
  exists req : http_request,
    network_calls (snd (get_chat_response w k u tr)) =
    network_calls tr ++ [EvPost req] /\
    snd (get_chat_response w k u tr) = tr ++ [EvPost req] /\
    sent_messages (EvPost req) = Some (conversation u).
Proof.
  eexists. rewrite get_chat_response_trace, network_calls_app.
  repeat split.
Qed.

(** The network calls of the AzureHosted path carry the conversation. *)
Lemma get_chat_response_azure_network_calls (w : World) (u : string)
    (tr : list event) :
  exists evs : list event,
    network_calls (snd (get_chat_response_azure w u tr)) =
    network_calls tr ++ evs /\
    forall ev : event, ev ∈ evs -> sent_messages ev = Some (conversation u).
Proof.
  destruct (get_chat_response_azure_trace w u tr) as (evs & -> & Hshape).
  exists (network_calls evs). split; [apply network_calls_app |].
  intros ev Hin.
  destruct Hshape as [-> | (k & e & _ & _ & [-> | (d & _ & ->)])];
    simpl in Hin.
  - by apply elem_of_nil in Hin.
  - by apply elem_of_nil in Hin.
  - apply list_elem_of_singleton in Hin as ->. reflexivity.
Qed.

(** *** Failures of the request *)

Lemma raise_for_status_error (r : Response) :
  400 <= status_code r < 600 ->
  exists msg : string,
    raise_for_status r = Raise (RequestException HTTPError msg).
Proof.
  intros Hstatus. unfold raise_for_status.
  destruct (Z.leb_spec 400 (status_code r)); [| lia].
  destruct (Z.ltb_spec (status_code r) 500); simpl.
  - destruct (pretty (status_code r)); simpl; eauto.
  - destruct (Z.leb_spec 500 (status_code r)); [| lia].
    destruct (Z.ltb_spec (status_code r) 600); [| lia]. simpl.
    destruct (pretty (status_code r)); simpl; eauto.
Qed.

Lemma raise_for_status_ok (r : Response) :
  ~ 400 <= status_code r < 600 -> raise_for_status r = Return tt.
Proof.
  intros Hstatus. unfold raise_for_status.
  destruct (Z.leb_spec 400 (status_code r)),
    (Z.ltb_spec (status_code r) 500),
    (Z.leb_spec 500 (status_code r)),
    (Z.ltb_spec (status_code r) 600); simpl; try reflexivity; lia.
Qed.

(** C5, as stated, fails: a status outside 2xx need not make the Direct path
    fail.  An endpoint that answers 300 with a body holding a reply is not
    an error for [raise_for_status], and the reply is returned and printed. *)
Lemma non_2xx_status_counterexample :
  exists (req : http_request) (response : Response),
    snd (get_chat_response
           (mock_direct 300 "Multiple Choices" (Return hello_body) "hi")
           "k" "hi" []) = [EvPost req] /\
    http_post (mock_direct 300 "Multiple Choices" (Return hello_body) "hi") req
    = Return response /\
    ~ 200 <= status_code response < 300 /\
    fst (get_chat_response
           (mock_direct 300 "Multiple Choices" (Return hello_body) "hi")
           "k" "hi" []) = Return (PStr "hello") /\
    main plain_repr
      (mock_direct 300 "Multiple Choices" (Return hello_body) "hi")
      (direct_args "k") [] =
    (Return tt,
     [EvPrint "Chatbot initialized. Enter your question."; EvInput "You: ";
      EvPost req; EvPrint "Bot: hello"]).
Proof.
  eexists _, _. split; [reflexivity |]. split; [reflexivity |].
  split; [simpl; lia |]. split; reflexivity.
Qed.

(** C5, amended. On a transport failure (an exception of the requests
    library raised by the POST) or on a 4xx or 5xx status, the Direct path
    raises a RequestException: the transport's own exception, or the
    HTTPError of [raise_for_status]; the POST is its only network call, and
    [main] prints the single line "An error occurred: <message>" and
    returns. *)
Theorem request_failure_surfaces (repr : pyval -> string) :
  (forall (w : World) (k u : string) (tr : list event) (req : http_request)
          (c : requests_class) (msg : string),
     snd (get_chat_response w k u tr) = tr ++ [EvPost req] ->
     http_post w req = Raise (RequestException c msg) ->
     fst (get_chat_response w k u tr) = Raise (RequestException c msg) /\
     network_calls (snd (get_chat_response w k u tr)) =
     network_calls tr ++ [EvPost req]) /\
  (forall (w : World) (k u : string) (tr : list event) (req : http_request)
          (response : Response),
     snd (get_chat_response w k u tr) = tr ++ [EvPost req] ->
     http_post w req = Return response ->
     400 <= status_code response < 600 ->
     exists msg : string,
       fst (get_chat_response w k u tr) = Raise (RequestException HTTPError msg) /\
       network_calls (snd (get_chat_response w k u tr)) =
       network_calls tr ++ [EvPost req]) /\
  (forall (w : World) (args : Namespace) (line k : string)
          (c : requests_class) (msg : string),
     stdin_line w = Some line ->
     str_truthy (strip line) = true ->
     use_azure args = false ->
     args_api_key args = Some k ->
     str_truthy k = true ->
     fst (get_chat_response w k (strip line)
            [EvPrint "Chatbot initialized. Enter your question.";
             EvInput "You: "]) = Raise (RequestException c msg) ->
     fst (main repr w args []) = Return tt /\
     printed (snd (main repr w args [])) =
     ["Chatbot initialized. Enter your question.";
      "An error occurred: " +:+ msg] /\
     exists req : http_request,
       network_calls (snd (main repr w args [])) = [EvPost req]).
Proof.
  split; [| split].
  - intros w k u tr req c msg Htr Hpost. split.
    + rewrite (get_chat_response_answer w k u tr req Htr).
      by rewrite Hpost.
    + rewrite Htr. apply network_calls_app.
  - intros w k u tr req response Htr Hpost Hstatus.
    destruct (raise_for_status_error response Hstatus) as [msg Hraise].
    exists msg. split.
    + rewrite (get_chat_response_answer w k u tr req Htr).
      by rewrite Hpost, Hraise.
    + rewrite Htr. apply network_calls_app.
  - intros w args line k c msg Hline Hu Hazure Hkey Hk Hfail.
    rewrite (main_direct repr w args line k Hline Hu Hazure Hkey Hk).
    pose proof (get_chat_response_trace w k (strip line)
                  [EvPrint "Chatbot initialized. Enter your question.";
                   EvInput "You: "]) as Htr.
    destruct (get_chat_response w k (strip line) _) as [r tr].
    simpl in Hfail, Htr. subst r tr. simpl.
    split; [reflexivity |]. split; [reflexivity |].
    eexists. reflexivity.
Qed.

Lemma request_failure_surfaces_witness :
  fst (get_chat_response (mock_unreachable "hi") "k" "hi" [])
  = Raise (RequestException ConnectionError "Connection refused") /\
  (exists msg : string,
     fst (get_chat_response
            (mock_direct 500 "Internal Server Error" (Return hello_body) "hi")
            "k" "hi" []) = Raise (RequestException HTTPError msg)) /\
  printed
    (snd (main plain_repr
            (mock_direct 500 "Internal Server Error" (Return hello_body) "hi")
            (direct_args "k") [])) =
  ["Chatbot initialized. Enter your question.";
   "An error occurred: 500 Server Error: Internal Server Error for url: https://api.sarvam.ai/v1/chat/completions"].
Proof.
  destruct (request_failure_surfaces plain_repr)
    as (Htransport & Hstatus & Hmain).
  split; [| split].
  - eapply (Htransport (mock_unreachable "hi") "k" "hi" []); reflexivity.
  - destruct (Hstatus
                (mock_direct 500 "Internal Server Error" (Return hello_body)
                   "hi")
                "k" "hi" [] _ _ eq_refl eq_refl) as (msg & Hmsg & _);
      [simpl; lia |].
    exists msg. exact Hmsg.
  - eapply (Hmain
              (mock_direct 500 "Internal Server Error" (Return hello_body)
                 "hi")
              (direct_args "k") "hi" "k" HTTPError); reflexivity.
Defined.

(** *** The typed line *)

(** C9. When the typed line is empty after stripping, [main] returns without
    any network call to either provider, and no line starting with "Bot:"
    is printed. *)
Theorem blank_input_sends_nothing (repr : pyval -> string) (w : World)
    (args : Namespace) (line : string) :
  stdin_line w = Some line ->
  strip line = "" ->
  fst (main repr w args []) = Return tt /\
  network_calls (snd (main repr w args [])) = [] /\
  Forall (fun l => String.prefix "Bot:" l = false)
    (printed (snd (main repr w args []))).
Proof.
  intros Hline Hblank. rewrite (main_blank repr w args line Hline Hblank).
  simpl. repeat split. repeat constructor.
Qed.

Lemma blank_input_sends_nothing_witness :
  network_calls
    (snd (main plain_repr
            (mock_direct 200 "OK" (Return hello_body) "   ")
            (direct_args "k") [])) = [] /\
  network_calls
    (snd (main plain_repr (mock_azure azure_env_full [] "") azure_args []))
  = [].
Proof.
  split.
  - eapply (blank_input_sends_nothing plain_repr
              (mock_direct 200 "OK" (Return hello_body) "   ")
              (direct_args "k") "   "); reflexivity.
  - eapply (blank_input_sends_nothing plain_repr
              (mock_azure azure_env_full [] "") azure_args ""); reflexivity.
Defined.



(** ** Further properties *)

(** *** [str.strip] *)

Lemma lstrip_split (s : string) :
  exists a : string,
    s = a +:+ lstrip s /\ all_space a = true /\
    forall c : Ascii.ascii, first_char (lstrip s) = Some c -> isspace c = false.
Proof.
  induction s as [| c s (a & Hs & Ha & Hfirst)]; simpl.
  - exists "". split; [done |]. split; [done | discriminate].
  - destruct (isspace c) eqn:Hc.
    + exists (String c a). simpl. rewrite Hc, Ha.
      split; [exact (f_equal (String c) Hs) | auto].
    + exists "". split; [done |]. split; [done |].
      simpl. intros c' Hc'. congruence.
Qed.

Lemma rstrip_split (s : string) :
  exists b : string,
    s = rstrip s +:+ b /\ all_space b = true /\
    (forall c : Ascii.ascii,
       last_char (rstrip s) = Some c -> isspace c = false) /\
    (rstrip s <> "" -> first_char (rstrip s) = first_char s).
Proof.
  induction s as [| c s (b & Hs & Hb & Hlast & Hfirst)]; simpl.
  - exists "". split; [done |]. split; [done |].
    split; [discriminate | done].
  - destruct (rstrip s) as [| d r] eqn:Hr.
    + change (s = b) in Hs. subst b. destruct (isspace c) eqn:Hc.
      * exists (String c s). simpl. rewrite Hc, Hb.
        split; [done |]. split; [done |]. split; [discriminate | done].
      * exists s. split; [done |]. split; [done |].
        split; [| done]. simpl. intros c' Hc'. congruence.
    + exists b. split; [exact (f_equal (String c) Hs) |].
      split; [exact Hb |]. split; [| done]. intros c'. apply Hlast.
Qed.

Lemma lstrip_empty (s : string) : lstrip s = "" <-> all_space s = true.
Proof.
  induction s as [| c s IH]; simpl; [done |].
  destruct (isspace c); simpl; [exact IH | split; discriminate].
Qed.

Lemma rstrip_empty (s : string) : rstrip s = "" <-> all_space s = true.
Proof.
  induction s as [| c s IH]; simpl; [done |].
  destruct (rstrip s) as [| d r].
  - destruct (isspace c); simpl; [| split; discriminate].
    split; intros _; [by apply IH | done].
  - split; [discriminate |]. intros H.
    apply andb_true_iff in H as [_ H]. apply IH in H. discriminate H.
Qed.

Lemma all_space_app (a b : string) :
  all_space (a +:+ b) = all_space a && all_space b.
Proof.
  induction a as [| c a IH]; simpl; [done |].
  rewrite IH. apply andb_assoc.
Qed.

Lemma all_space_first (s : string) (c : Ascii.ascii) :
  all_space s = true -> first_char s = Some c -> isspace c = true.
Proof.
  destruct s as [| d s]; simpl; [discriminate |].
  intros H Hc. apply andb_true_iff in H as [H _]. congruence.
Qed.

(** [strip] removes a run of whitespace at each end, and what is left
    neither starts nor ends with whitespace. *)
Lemma strip_split (s : string) :
  exists a b : string,
    s = a +:+ strip s +:+ b /\ all_space a = true /\ all_space b = true /\
    (forall c : Ascii.ascii,
       first_char (strip s) = Some c -> isspace c = false) /\
    (forall c : Ascii.ascii,
       last_char (strip s) = Some c -> isspace c = false).
Proof.
  unfold strip.
  destruct (lstrip_split s) as (a & Hs & Ha & Hfirst).
  destruct (rstrip_split (lstrip s)) as (b & Hl & Hb & Hlast & Hkeep).
  exists a, b. split; [by rewrite <- Hl |].
  repeat split; try done.
  intros c Hc. apply Hfirst. rewrite <- Hkeep; [exact Hc |].
  intros Hempty. rewrite Hempty in Hc. discriminate Hc.
Qed.

(** [strip] leaves nothing exactly of the strings made of whitespace. *)
Lemma strip_empty (s : string) : strip s = "" <-> all_space s = true.
Proof.
  unfold strip. rewrite rstrip_empty. split.
  - intros Hl. destruct (lstrip_split s) as (a & Hs & Ha & _).
    rewrite Hs, all_space_app, Ha, Hl. reflexivity.
  - intros Hs. apply lstrip_empty in Hs. by rewrite Hs.
Qed.

Lemma str_truthy_false (s : string) : str_truthy s = false <-> s = "".
Proof. destruct s; simpl; split; congruence. Qed.

(** *** What the paths print and call *)

Lemma printed_app (tr evs : list event) :
  printed (tr ++ evs) = printed tr ++ printed evs.
Proof. unfold printed. apply omap_app. Qed.

(** Neither path prints. *)
Lemma get_chat_response_printed (w : World) (k u : string) (tr : list event) :
  printed (snd (get_chat_response w k u tr)) = printed tr.
Proof.
  rewrite get_chat_response_trace, printed_app. simpl. apply app_nil_r.
Qed.

Lemma get_chat_response_azure_printed (w : World) (u : string)
    (tr : list event) :
  printed (snd (get_chat_response_azure w u tr)) = printed tr.
Proof.
  destruct (get_chat_response_azure_trace w u tr) as (evs & -> & Hshape).
  rewrite printed_app.
  destruct Hshape as [-> | (k & e & _ & _ & [-> | (d & _ & ->)])];
    simpl; apply app_nil_r.
Qed.

(** The network calls of the AzureHosted path: none, or one SDK call. *)
Lemma get_chat_response_azure_one_call (w : World) (u : string)
    (tr : list event) :
  network_calls (snd (get_chat_response_azure w u tr)) = network_calls tr \/
  exists (client : AzureOpenAI) (kw : create_kwargs),
    network_calls (snd (get_chat_response_azure w u tr)) =
    network_calls tr ++ [EvCreate client kw].
Proof.
  destruct (get_chat_response_azure_trace w u tr) as (evs & -> & Hshape).
  rewrite network_calls_app.
  destruct Hshape as [-> | (k & e & _ & _ & [-> | (d & _ & ->)])]; simpl.
  - left. apply app_nil_r.
  - left. apply app_nil_r.
  - right. eexists _, _. reflexivity.
Qed.

(** X1. Without [--use-azure] and without a non-empty [--api-key], a
    non-blank line is not sent: [main] reports the usage error through
    [parser.error], leaves with SystemExit(2), issues no network call and
    prints nothing but the greeting.  The key is only checked once a
    non-blank line was typed: on a blank line [main] returns normally. *)
Theorem main_requires_api_key (repr : pyval -> string) (w : World)
    (args : Namespace) (line : string) :
  stdin_line w = Some line ->
  use_azure args = false ->
  args_api_key args = None \/ args_api_key args = Some "" ->
  (strip line <> "" ->
   fst (main repr w args []) = Raise (SystemExit 2) /\
   EvParserError "--api-key is required when not using --use-azure"
     ∈ snd (main repr w args []) /\
   network_calls (snd (main repr w args [])) = [] /\
   printed (snd (main repr w args [])) =
   ["Chatbot initialized. Enter your question."]) /\
  (strip line = "" -> fst (main repr w args []) = Return tt).
Proof.
  intros Hline Hazure Hkey. split.
  - intros Hu.
    assert (str_truthy (strip line) = true) as Ht
      by (destruct (strip line); [done | reflexivity]).
    rewrite (main_no_key repr w args line Hline Ht Hazure Hkey). simpl.
    repeat split. by repeat constructor.
  - intros Hblank. by rewrite (main_blank repr w args line Hline Hblank).
Qed.

Lemma main_requires_api_key_witness :
  fst (main plain_repr (mock_direct 200 "OK" (Return hello_body) "hi")
         no_args []) = Raise (SystemExit 2) /\
  network_calls
    (snd (main plain_repr (mock_direct 200 "OK" (Return hello_body) "hi")
            no_args [])) = [] /\
  fst (main plain_repr (mock_direct 200 "OK" (Return hello_body) "  ")
         no_args []) = Return tt.
Proof.
  destruct (main_requires_api_key plain_repr
              (mock_direct 200 "OK" (Return hello_body) "hi") no_args "hi"
              eq_refl eq_refl (or_introl eq_refl)) as [Hsent _].
  destruct (main_requires_api_key plain_repr
              (mock_direct 200 "OK" (Return hello_body) "  ") no_args "  "
              eq_refl eq_refl (or_introl eq_refl)) as [_ Hblank].
  destruct Hsent as (Hexit & _ & Hcalls & _); [discriminate |].
  split; [exact Hexit |]. split; [exact Hcalls |].
  apply Hblank. reflexivity.
Defined.

(** X2. When the path that [main] runs returns a reply, [main] prints
    exactly the greeting and then the line "Bot: " followed by [str] of the
    reply (the reply itself when it is a str), and returns; the Direct path
    has then issued exactly one POST. *)
Theorem main_prints_reply (repr : pyval -> string) (w : World)
    (args : Namespace) (line : string) (v : pyval) :
  stdin_line w = Some line ->
  str_truthy (strip line) = true ->
  (forall k : string,
     use_azure args = false ->
     args_api_key args = Some k ->
     str_truthy k = true ->
     fst (get_chat_response w k (strip line)
            [EvPrint "Chatbot initialized. Enter your question.";
             EvInput "You: "]) = Return v ->
     fst (main repr w args []) = Return tt /\
     printed (snd (main repr w args [])) =
     ["Chatbot initialized. Enter your question."; "Bot: " +:+ str repr v] /\
     exists req : http_request,
       network_calls (snd (main repr w args [])) = [EvPost req]) /\
  (use_azure args = true ->
   fst (get_chat_response_azure w (strip line)
          [EvPrint "Chatbot initialized. Enter your question.";
           EvInput "You: "]) = Return v ->
   fst (main repr w args []) = Return tt /\
   printed (snd (main repr w args [])) =
   ["Chatbot initialized. Enter your question."; "Bot: " +:+ str repr v]) /\
  (forall s : string, v = PStr s -> "Bot: " +:+ str repr v = "Bot: " +:+ s).
Proof.
  intros Hline Hu. split; [| split].
  - intros k Hazure Hkey Hk Hret.
    rewrite (main_direct repr w args line k Hline Hu Hazure Hkey Hk).
    pose proof (get_chat_response_trace w k (strip line)
                  [EvPrint "Chatbot initialized. Enter your question.";
                   EvInput "You: "]) as Htr.
    destruct (get_chat_response w k (strip line) _) as [r tr].
    simpl in Hret, Htr. subst r tr. simpl.
    split; [reflexivity |]. split; [reflexivity |]. eexists. reflexivity.
  - intros Hazure Hret.
    rewrite (main_azure repr w args line Hline Hu Hazure).
    pose proof (get_chat_response_azure_printed w (strip line)
                  [EvPrint "Chatbot initialized. Enter your question.";
                   EvInput "You: "]) as Hp.
    destruct (get_chat_response_azure w (strip line) _) as [r tr].
    simpl in Hret, Hp. subst r. simpl.
    split; [reflexivity |]. rewrite printed_app, Hp. reflexivity.
  - intros s ->. reflexivity.
Qed.

Lemma main_prints_reply_witness :
  printed
    (snd (main plain_repr (mock_direct 200 "OK" (Return hello_body) " hi ")
            (direct_args "k") [])) =
  ["Chatbot initialized. Enter your question."; "Bot: hello"] /\
  printed
    (snd (main plain_repr
            (mock_azure azure_env_full
               [{| message := {| content := Some "hello" |} |}] "hi")
            azure_args [])) =
  ["Chatbot initialized. Enter your question."; "Bot: hello"].
Proof.
  split.
  - destruct (main_prints_reply plain_repr
                (mock_direct 200 "OK" (Return hello_body) " hi ")
                (direct_args "k") " hi " (PStr "hello") eq_refl eq_refl)
      as (Hdirect & _ & _).
    destruct (Hdirect "k" eq_refl eq_refl eq_refl eq_refl) as (_ & Hp & _).
    exact Hp.
  - destruct (main_prints_reply plain_repr
                (mock_azure azure_env_full
                   [{| message := {| content := Some "hello" |} |}] "hi")
                azure_args "hi" (PStr "hello") eq_refl eq_refl)
      as (_ & Hazure & _).
    destruct (Hazure eq_refl eq_refl) as (_ & Hp). exact Hp.
Defined.

(** X3. [main] catches RequestException only.  An exception of any other
    class raised by the path it runs (the KeyError of an absent variable,
    the IndexError of an empty [choices], an error of the Azure SDK)
    leaves [main] unchanged, and no line is printed after the greeting. *)
Theorem main_propagates_other_exceptions (repr : pyval -> string)
    (w : World) (args : Namespace) (line : string) (e : exn) :
  stdin_line w = Some line ->
  str_truthy (strip line) = true ->
  is_RequestException e = false ->
  (use_azure args = true ->
   fst (get_chat_response_azure w (strip line)
          [EvPrint "Chatbot initialized. Enter your question.";
           EvInput "You: "]) = Raise e ->
   fst (main repr w args []) = Raise e /\
   printed (snd (main repr w args [])) =
   ["Chatbot initialized. Enter your question."]) /\
  (forall k : string,
     use_azure args = false ->
     args_api_key args = Some k ->
     str_truthy k = true ->
     fst (get_chat_response w k (strip line)
            [EvPrint "Chatbot initialized. Enter your question.";
             EvInput "You: "]) = Raise e ->
     fst (main repr w args []) = Raise e /\
     printed (snd (main repr w args [])) =
     ["Chatbot initialized. Enter your question."]).
Proof.
  intros Hline Hu He. split.
  - intros Hazure Hraise.
    rewrite (main_azure repr w args line Hline Hu Hazure).
    pose proof (get_chat_response_azure_printed w (strip line)
                  [EvPrint "Chatbot initialized. Enter your question.";
                   EvInput "You: "]) as Hp.
    destruct (get_chat_response_azure w (strip line) _) as [r tr].
    simpl in Hraise, Hp. subst r.
    destruct e; try discriminate He; simpl; by rewrite Hp.
  - intros k Hazure Hkey Hk Hraise.
    rewrite (main_direct repr w args line k Hline Hu Hazure Hkey Hk).
    pose proof (get_chat_response_printed w k (strip line)
                  [EvPrint "Chatbot initialized. Enter your question.";
                   EvInput "You: "]) as Hp.
    destruct (get_chat_response w k (strip line) _) as [r tr].
    simpl in Hraise, Hp. subst r.
    destruct e; try discriminate He; simpl; by rewrite Hp.
Qed.

Lemma main_propagates_other_exceptions_witness :
  fst (main plain_repr (mock_azure_failing azure_env_full "hi") azure_args [])
  = Raise (OpenAIError "Connection error.") /\
  fst (main plain_repr
         (mock_direct 200 "OK" (Return empty_choices_body) "hi")
         (direct_args "k") []) = Raise IndexError.
Proof.
  split.
  - destruct (main_propagates_other_exceptions plain_repr
                (mock_azure_failing azure_env_full "hi") azure_args "hi"
                (OpenAIError "Connection error.") eq_refl eq_refl eq_refl)
      as [Hazure _].
    destruct (Hazure eq_refl eq_refl) as [Hraise _]. exact Hraise.
  - destruct (main_propagates_other_exceptions plain_repr
                (mock_direct 200 "OK" (Return empty_choices_body) "hi")
                (direct_args "k") "hi" IndexError eq_refl eq_refl eq_refl)
      as [_ Hdirect].
    destruct (Hdirect "k" eq_refl eq_refl eq_refl eq_refl) as [Hraise _].
    exact Hraise.
Defined.

(** X4. With [--use-azure] the value of [--api-key] is never read: two
    command lines that differ only in the API key run [main] to the same
    result and the same trace. *)
Theorem main_azure_ignores_api_key (repr : pyval -> string) (w : World)
    (k1 k2 : option string) :
  main repr w {| args_api_key := k1; use_azure := true |} [] =
  main repr w {| args_api_key := k2; use_azure := true |} [].
Proof.
  destruct (stdin_line w) as [line |] eqn:Hline;
    [| by rewrite !main_eof].
  destruct (str_truthy (strip line)) eqn:Hu.
  - rewrite (main_azure repr w {| args_api_key := k1; use_azure := true |}
               line Hline Hu eq_refl).
    by rewrite (main_azure repr w {| args_api_key := k2; use_azure := true |}
                  line Hline Hu eq_refl).
  - apply str_truthy_false in Hu.
    by rewrite !(main_blank repr w _ line Hline Hu).
Qed.

(** X5. One run of [main] issues at most one network call, and only to the
    selected provider: nothing, or one POST without [--use-azure], or one
    SDK call with [--use-azure]. *)
Theorem main_one_call_one_provider (repr : pyval -> string) (w : World)
    (args : Namespace) :
  network_calls (snd (main repr w args [])) = [] \/
  (use_azure args = false /\
   exists req : http_request,
     network_calls (snd (main repr w args [])) = [EvPost req]) \/
  (use_azure args = true /\
   exists (client : AzureOpenAI) (kw : create_kwargs),
     network_calls (snd (main repr w args [])) = [EvCreate client kw]).
Proof.
  rewrite main_network_calls.
  destruct (stdin_line w) as [line |]; [| by left].
  destruct (str_truthy (strip line)); [| by left].
  destruct (use_azure args).
  - destruct (get_chat_response_azure_one_call w (strip line)
                [EvPrint "Chatbot initialized. Enter your question.";
                 EvInput "You: "]) as [-> | (client & kw & ->)].
    + by left.
    + right. right. split; [reflexivity |]. by exists client, kw.
  - destruct (args_api_key args) as [k |]; [| by left].
    destruct (str_truthy k); [| by left].
    destruct (get_chat_response_network_calls w k (strip line)
                [EvPrint "Chatbot initialized. Enter your question.";
                 EvInput "You: "]) as (req & -> & _).
    right. left. split; [reflexivity |]. by exists req.
Qed.

(** X6. The AzureHosted path checks its prerequisites in a fixed order and
    reports the first that fails: the [openai] package (ImportError, before
    the environment is read), then AZURE_OPENAI_API_KEY, then
    AZURE_OPENAI_ENDPOINT (KeyError, before the client is constructed), then
    the constructor of the client (its own exception, whether or not the
    deployment is set), then AZURE_OPENAI_DEPLOYMENT (KeyError, after the
    client was constructed and before any call of the SDK). *)
Theorem azure_prerequisites_in_order (w : World) (u : string)
    (tr : list event) :
  (openai_installed w = false ->
   get_chat_response_azure w u tr =
   (Raise (ImportError "Install the openai package: pip install openai"),
    tr)) /\
  (openai_installed w = true ->
   environ w !! "AZURE_OPENAI_API_KEY" = None ->
   get_chat_response_azure w u tr =
   (Raise (KeyError (KStr "AZURE_OPENAI_API_KEY")), tr)) /\
  (forall k : string,
     openai_installed w = true ->
     environ w !! "AZURE_OPENAI_API_KEY" = Some k ->
     environ w !! "AZURE_OPENAI_ENDPOINT" = None ->
     get_chat_response_azure w u tr =
     (Raise (KeyError (KStr "AZURE_OPENAI_ENDPOINT")), tr)) /\
  (forall (k e : string) (refused : exn),
     openai_installed w = true ->
     environ w !! "AZURE_OPENAI_API_KEY" = Some k ->
     environ w !! "AZURE_OPENAI_ENDPOINT" = Some e ->
     azure_init w
       {| api_key := k; azure_endpoint := e;
          api_version :=
            environ_get w "AZURE_OPENAI_API_VERSION" "2024-12-01-preview" |}
     = Some refused ->
     get_chat_response_azure w u tr =
     (Raise refused,
      tr ++ [EvAzureOpenAI
               {| api_key := k; azure_endpoint := e;
                  api_version :=
                    environ_get w "AZURE_OPENAI_API_VERSION"
                      "2024-12-01-preview" |}])) /\
  (forall k e : string,
     openai_installed w = true ->
     environ w !! "AZURE_OPENAI_API_KEY" = Some k ->
     environ w !! "AZURE_OPENAI_ENDPOINT" = Some e ->
     azure_init w
       {| api_key := k; azure_endpoint := e;
          api_version :=
            environ_get w "AZURE_OPENAI_API_VERSION" "2024-12-01-preview" |}
     = None ->
     environ w !! "AZURE_OPENAI_DEPLOYMENT" = None ->
     get_chat_response_azure w u tr =
     (Raise (KeyError (KStr "AZURE_OPENAI_DEPLOYMENT")),
      tr ++ [EvAzureOpenAI
               {| api_key := k; azure_endpoint := e;
                  api_version :=
                    environ_get w "AZURE_OPENAI_API_VERSION"
                      "2024-12-01-preview" |}])).
Proof.
  split; [| split; [| split; [| split]]].
  - intros Hi. run_script. by rewrite Hi.
  - intros Hi Hk. run_script. by rewrite Hi, Hk.
  - intros k Hi Hk He. run_script. by rewrite Hi, Hk, He.
  - intros k e refused Hi Hk He Hinit. run_script.
    rewrite Hi, Hk, He. simpl. by rewrite Hinit.
  - intros k e Hi Hk He Hinit Hd. run_script.
    rewrite Hi, Hk, He. simpl. rewrite Hinit. simpl. by rewrite Hd.
Qed.

Lemma azure_prerequisites_in_order_witness :
  get_chat_response_azure (mock_no_openai ∅ "hi") "hi" [] =
  (Raise (ImportError "Install the openai package: pip install openai"), [])
  /\
  get_chat_response_azure (mock_azure ∅ [] "hi") "hi" [] =
  (Raise (KeyError (KStr "AZURE_OPENAI_API_KEY")), []) /\
  get_chat_response_azure (mock_azure azure_env_key_only [] "hi") "hi" [] =
  (Raise (KeyError (KStr "AZURE_OPENAI_ENDPOINT")), []) /\
  (exists client : AzureOpenAI,
     get_chat_response_azure (mock_azure_rejecting azure_env_full "hi")
       "hi" [] =
     (Raise (OpenAIError "Missing credentials."), [EvAzureOpenAI client])) /\
  (exists client : AzureOpenAI,
     get_chat_response_azure (mock_azure azure_env_no_deployment [] "hi")
       "hi" [] =
     (Raise (KeyError (KStr "AZURE_OPENAI_DEPLOYMENT")),
      [EvAzureOpenAI client])).
Proof.
  split; [| split; [| split; [| split]]].
  - by apply (azure_prerequisites_in_order (mock_no_openai ∅ "hi") "hi" []).
  - by apply (azure_prerequisites_in_order (mock_azure ∅ [] "hi") "hi" []).
  - destruct (azure_prerequisites_in_order
                (mock_azure azure_env_key_only [] "hi") "hi" [])
      as (_ & _ & Hendpoint & _).
    by apply (Hendpoint "secret").
  - destruct (azure_prerequisites_in_order
                (mock_azure_rejecting azure_env_full "hi") "hi" [])
      as (_ & _ & _ & Hrefused & _).
    eexists.
    exact (Hrefused "secret" "https://example.openai.azure.com"
             (OpenAIError "Missing credentials.")
             eq_refl eq_refl eq_refl eq_refl).
  - destruct (azure_prerequisites_in_order
                (mock_azure azure_env_no_deployment [] "hi") "hi" [])
      as (_ & _ & _ & _ & Hdeployment).
    eexists.
    exact (Hdeployment "secret" "https://example.openai.azure.com"
             eq_refl eq_refl eq_refl eq_refl eq_refl).
Defined.

(** X7. With the package installed, the three required variables set and a
    constructor that accepts the key and the endpoint, the AzureHosted path
    constructs one client from them and calls the SDK exactly once, with the
    value of AZURE_OPENAI_DEPLOYMENT as the model; an exception of that call
    is raised unchanged, without a second call. *)
Theorem azure_single_sdk_call (w : World) (u k e d : string)
    (tr : list event) :
  openai_installed w = true ->
  environ w !! "AZURE_OPENAI_API_KEY" = Some k ->
  environ w !! "AZURE_OPENAI_ENDPOINT" = Some e ->
  environ w !! "AZURE_OPENAI_DEPLOYMENT" = Some d ->
  azure_init w
    {| api_key := k; azure_endpoint := e;
       api_version :=
         environ_get w "AZURE_OPENAI_API_VERSION" "2024-12-01-preview" |}
  = None ->
  exists (client : AzureOpenAI) (kw : create_kwargs),
    snd (get_chat_response_azure w u tr) =
    tr ++ [EvAzureOpenAI client; EvCreate client kw] /\
    api_key client = k /\ azure_endpoint client = e /\ model kw = d /\
    forall err : exn,
      azure_create w client kw = Raise err ->
      fst (get_chat_response_azure w u tr) = Raise err.
Proof.
  intros Hi Hk He Hd Hinit.
  destruct (get_chat_response_azure_calls w u k e d tr Hi Hk He Hd Hinit)
    as (client & kw & Htr & Hck & Hce & Hm).
  exists client, kw. repeat split; try done.
  intros err Herr.
  rewrite (get_chat_response_azure_answer w u tr client kw Htr).
  by rewrite Herr.
Qed.

Lemma azure_single_sdk_call_witness :
  exists (client : AzureOpenAI) (kw : create_kwargs),
    get_chat_response_azure (mock_azure_failing azure_env_full "hi") "hi" []
    = (Raise (OpenAIError "Connection error."),
       [EvAzureOpenAI client; EvCreate client kw]) /\
    model kw = "gpt-4o".
Proof.
  destruct (azure_single_sdk_call (mock_azure_failing azure_env_full "hi")
              "hi" "secret" "https://example.openai.azure.com" "gpt-4o" []
              eq_refl eq_refl eq_refl eq_refl eq_refl)
    as (client & kw & Htr & _ & _ & Hm & Herr).
  exists client, kw. split; [| exact Hm].
  specialize (Herr (OpenAIError "Connection error.") eq_refl).
  destruct (get_chat_response_azure _ _ _) as [r tr1].
  simpl in Htr, Herr. by rewrite Htr, Herr.
Defined.

(** X8. The AzureHosted path returns the content of the first choice as it
    is: when that content is None the function returns None without an
    error, and [main] prints the line "Bot: None". *)
Theorem azure_absent_content_is_None (repr : pyval -> string) (w : World)
    (args : Namespace) (line : string) (client : AzureOpenAI)
    (kw : create_kwargs) (response : ChatCompletion) (c : Choice) :
  stdin_line w = Some line ->
  str_truthy (strip line) = true ->
  use_azure args = true ->
  snd (get_chat_response_azure w (strip line)
         [EvPrint "Chatbot initialized. Enter your question.";
          EvInput "You: "]) =
  [EvPrint "Chatbot initialized. Enter your question."; EvInput "You: "]
    ++ [EvAzureOpenAI client; EvCreate client kw] ->
  azure_create w client kw = Return response ->
  head (choices response) = Some c ->
  content (message c) = None ->
  fst (get_chat_response_azure w (strip line)
         [EvPrint "Chatbot initialized. Enter your question.";
          EvInput "You: "]) = Return PNone /\
  fst (main repr w args []) = Return tt /\
  printed (snd (main repr w args [])) =
  ["Chatbot initialized. Enter your question."; "Bot: None"].
Proof.
  intros Hline Hu Hazure Htr Hcreate Hhead Hcontent.
  pose proof (get_chat_response_azure_answer w (strip line) _ client kw Htr)
    as Hret.
  rewrite Hcreate, Hhead, Hcontent in Hret.
  split; [exact Hret |].
  rewrite (main_azure repr w args line Hline Hu Hazure).
  destruct (get_chat_response_azure w (strip line) _) as [r tr1].
  simpl in Hret, Htr. subst r tr1. simpl. split; reflexivity.
Qed.

Lemma azure_absent_content_is_None_witness :
  main plain_repr
    (mock_azure azure_env_full [{| message := {| content := None |} |}] "hi")
    azure_args [] =
  (Return tt,
   [EvPrint "Chatbot initialized. Enter your question."; EvInput "You: ";
    EvAzureOpenAI
      {| api_key := "secret";
         azure_endpoint := "https://example.openai.azure.com";
         api_version := "2024-12-01-preview" |};
    EvCreate
      {| api_key := "secret";
         azure_endpoint := "https://example.openai.azure.com";
         api_version := "2024-12-01-preview" |}
      {| model := "gpt-4o"; messages := conversation "hi";
         temperature := 0.7 |};
    EvPrint "Bot: None"]) /\
  printed
    (snd (main plain_repr
            (mock_azure azure_env_full
               [{| message := {| content := None |} |}] "hi")
            azure_args [])) =
  ["Chatbot initialized. Enter your question."; "Bot: None"].
Proof.
  split; [reflexivity |].
  eapply (azure_absent_content_is_None plain_repr
            (mock_azure azure_env_full
               [{| message := {| content := None |} |}] "hi")
            azure_args "hi"); reflexivity.
Defined.

(** X9. In the Direct path the status is checked before the body is
    decoded: when the status is not a 4xx or 5xx one and [response.json()]
    raises, that exception is what [get_chat_response] raises, after its
    one POST and without reading any field. *)
Theorem undecodable_body_raises (w : World) (k u : string) (tr : list event)
    (req : http_request) (response : Response) (e : exn) :
  snd (get_chat_response w k u tr) = tr ++ [EvPost req] ->
  http_post w req = Return response ->
  ~ 400 <= status_code response < 600 ->
  json response = Raise e ->
  get_chat_response w k u tr = (Raise e, tr ++ [EvPost req]).
Proof.
  intros Htr Hpost Hstatus Hjson.
  pose proof (get_chat_response_answer w k u tr req Htr) as Hret.
  rewrite Hpost, (raise_for_status_ok response Hstatus), Hjson in Hret.
  destruct (get_chat_response w k u tr) as [r tr1].
  simpl in Htr, Hret. by rewrite Htr, Hret.
Qed.

Lemma undecodable_body_raises_witness :
  exists req : http_request,
    get_chat_response
      (mock_direct 200 "OK" (Raise (ValueError "Expecting value")) "hi")
      "k" "hi" [] = (Raise (ValueError "Expecting value"), [EvPost req]).
Proof.
  eexists.
  eapply (undecodable_body_raises
            (mock_direct 200 "OK" (Raise (ValueError "Expecting value")) "hi")
            "k" "hi" []);
    [reflexivity | reflexivity | simpl; lia | reflexivity].
Defined.

(** *** The typed line, again *)

Lemma last_char_nonempty (s : string) :
  s <> "" -> exists c : Ascii.ascii, last_char s = Some c.
Proof.
  induction s as [| c s IH]; [done |]. intros _.
  destruct s as [| d s]; [by exists c |].
  destruct IH as [c' Hc']; [done |]. exists c'. exact Hc'.
Qed.

(** X10. With an API key and without [--use-azure], [main] sends a request
    exactly when the typed line holds a character that is not whitespace:
    a line made of whitespace only (spaces, tabs, ...) sends nothing. *)
Theorem request_iff_not_blank (repr : pyval -> string) (w : World)
    (args : Namespace) (line k : string) :
  stdin_line w = Some line ->
  use_azure args = false ->
  args_api_key args = Some k ->
  str_truthy k = true ->
  (all_space line = true ->
   main repr w args [] =
   (Return tt,
    [EvPrint "Chatbot initialized. Enter your question."; EvInput "You: "]))
  /\
  (all_space line = false ->
   exists req : http_request,
     network_calls (snd (main repr w args [])) = [EvPost req]).
Proof.
  intros Hline Hazure Hkey Hk. split.
  - intros Hblank. apply strip_empty in Hblank.
    exact (main_blank repr w args line Hline Hblank).
  - intros Hsome.
    assert (str_truthy (strip line) = true) as Hu.
    { destruct (str_truthy (strip line)) eqn:Ht; [done |].
      apply str_truthy_false, strip_empty in Ht. congruence. }
    rewrite main_network_calls, Hline, Hu, Hazure, Hkey, Hk.
    destruct (get_chat_response_network_calls w k (strip line)
                [EvPrint "Chatbot initialized. Enter your question.";
                 EvInput "You: "]) as (req & -> & _).
    by exists req.
Qed.

Lemma request_iff_not_blank_witness :
  network_calls
    (snd (main plain_repr
            (mock_direct 200 "OK" (Return hello_body) "     ")
            (direct_args "k") [])) = [] /\
  exists req : http_request,
    network_calls
      (snd (main plain_repr
              (mock_direct 200 "OK" (Return hello_body) "  ?  ")
              (direct_args "k") [])) = [EvPost req].
Proof.
  destruct (request_iff_not_blank plain_repr
              (mock_direct 200 "OK" (Return hello_body) "     ")
              (direct_args "k") "     " "k" eq_refl eq_refl eq_refl eq_refl)
    as [Hblank _].
  destruct (request_iff_not_blank plain_repr
              (mock_direct 200 "OK" (Return hello_body) "  ?  ")
              (direct_args "k") "  ?  " "k" eq_refl eq_refl eq_refl eq_refl)
    as [_ Hsent].
  split.
  - by rewrite Hblank.
  - by apply Hsent.
Defined.

(** X11. The user message of every request of [main] is the typed line
    without a run of whitespace at its start and at its end: it is a
    non-empty str that neither starts nor ends with whitespace, and the line
    is that str between two strings of whitespace, so whitespace inside the
    message is kept. *)
Theorem sent_user_content_is_trimmed (repr : pyval -> string) (w : World)
    (args : Namespace) (line : string) (ev : event) :
  stdin_line w = Some line ->
  ev ∈ snd (main repr w args []) ->
  is_network_call ev = true ->
  exists u a b : string,
    sent_user_content ev = Some (PStr u) /\
    line = a +:+ u +:+ b /\
    all_space a = true /\ all_space b = true /\
    (exists c : Ascii.ascii, first_char u = Some c /\ isspace c = false) /\
    (exists c : Ascii.ascii, last_char u = Some c /\ isspace c = false).
Proof.
  intros Hline Hin Hnet.
  assert (ev ∈ network_calls (snd (main repr w args []))) as Hcall
    by by apply elem_of_network_calls.
  clear Hin Hnet. rewrite main_network_calls, Hline in Hcall.
  destruct (str_truthy (strip line)) eqn:Hu;
    [| by apply elem_of_nil in Hcall].
  assert (sent_messages ev = Some (conversation (strip line))) as Hmsgs.
  { destruct (use_azure args).
    - destruct (get_chat_response_azure_network_calls w (strip line)
                  [EvPrint "Chatbot initialized. Enter your question.";
                   EvInput "You: "]) as (evs & Hcalls & Hall).
      rewrite Hcalls in Hcall. simpl in Hcall. by apply Hall.
    - destruct (args_api_key args) as [k |];
        [| by apply elem_of_nil in Hcall].
      destruct (str_truthy k); [| by apply elem_of_nil in Hcall].
      destruct (get_chat_response_network_calls w k (strip line)
                  [EvPrint "Chatbot initialized. Enter your question.";
                   EvInput "You: "]) as (req & Hcalls & _ & Hreq).
      rewrite Hcalls in Hcall. simpl in Hcall.
      apply list_elem_of_singleton in Hcall as ->. exact Hreq. }
  destruct (strip_split line) as (a & b & Hsplit & Ha & Hb & Hfirst & Hlast).
  exists (strip line), a, b.
  split; [unfold sent_user_content; by rewrite Hmsgs |].
  split; [exact Hsplit |]. split; [exact Ha |]. split; [exact Hb |].
  assert (strip line <> "") as Hne by (intros H; by rewrite H in Hu).
  split.
  - destruct (strip line) as [| c s] eqn:Hs; [done |].
    exists c. split; [reflexivity |]. by apply Hfirst.
  - destruct (last_char_nonempty (strip line) Hne) as [c Hc].
    exists c. split; [exact Hc |]. by apply Hlast.
Qed.

Lemma sent_user_content_is_trimmed_witness :
  exists (req : http_request) (u a b : string),
    network_calls
      (snd (main plain_repr
              (mock_direct 200 "OK" (Return hello_body) "  hi  there ")
              (direct_args "k") [])) = [EvPost req] /\
    sent_user_content (EvPost req) = Some (PStr u) /\
    "  hi  there " = a +:+ u +:+ b /\
    all_space a = true /\ all_space b = true.
Proof.
  eexists.
  destruct (sent_user_content_is_trimmed plain_repr
              (mock_direct 200 "OK" (Return hello_body) "  hi  there ")
              (direct_args "k") "  hi  there "
              (EvPost
                 {| req_method := "POST"; req_url := sarvam_url;
                    req_headers :=
                      [("Authorization", "Bearer k");
                       ("Content-Type", "application/json")];
                    req_json :=
                      PDict
                        [("model", PStr "sarvam-m");
                         ("messages", conversation "hi  there");
                         ("temperature", PFloat 0.7)] |})
              eq_refl)
    as (u & a & b & Hu & Hsplit & Ha & Hb & _).
  - apply elem_of_cons. right. apply elem_of_cons. right.
    apply elem_of_cons. left. reflexivity.
  - reflexivity.
  - exists u, a, b. split; [reflexivity |]. auto.
Defined.

(** X12. Whatever happens, [main] first prints the greeting and then
    prompts with "You: ", before any other effect, and it prints at most
    one more line: "Bot: <reply>" or "An error occurred: <message>", after
    either of which it returns normally. *)
Theorem main_output_shape (repr : pyval -> string) (w : World)
    (args : Namespace) :
  (exists rest : list event,
     snd (main repr w args []) =
     EvPrint "Chatbot initialized. Enter your question."
       :: EvInput "You: " :: rest) /\
  (printed (snd (main repr w args [])) =
   ["Chatbot initialized. Enter your question."] \/
   (exists v : pyval,
      fst (main repr w args []) = Return tt /\
      printed (snd (main repr w args [])) =
      ["Chatbot initialized. Enter your question.";
       "Bot: " +:+ str repr v]) \/
   (exists msg : string,
      fst (main repr w args []) = Return tt /\
      printed (snd (main repr w args [])) =
      ["Chatbot initialized. Enter your question.";
       "An error occurred: " +:+ msg])).
Proof.
  assert (forall (r : result pyval) (evs : list event),
            let tr := [EvPrint "Chatbot initialized. Enter your question.";
                       EvInput "You: "] ++ evs in
            let out :=
              match r with
              | Return v =>
                  (Return tt, tr ++ [EvPrint ("Bot: " +:+ str repr v)])
              | Raise (RequestException c msg) =>
                  (Return tt, tr ++ [EvPrint ("An error occurred: " +:+ msg)])
              | Raise e => (Raise e, tr)
              end in
            printed evs = [] ->
            (exists rest : list event,
               snd out =
               EvPrint "Chatbot initialized. Enter your question."
                 :: EvInput "You: " :: rest) /\
            (printed (snd out) =
             ["Chatbot initialized. Enter your question."] \/
             (exists v : pyval,
                fst out = Return tt /\
                printed (snd out) =
                ["Chatbot initialized. Enter your question.";
                 "Bot: " +:+ str repr v]) \/
             (exists msg : string,
                fst out = Return tt /\
                printed (snd out) =
                ["Chatbot initialized. Enter your question.";
                 "An error occurred: " +:+ msg]))) as Hshape.
  { intros r evs tr out Hevs. subst out tr.
    destruct r as [v | e]; [| destruct e]; simpl;
      (split; [eexists; reflexivity |]);
      rewrite ?printed_app, Hevs; simpl; eauto. }
  destruct (stdin_line w) as [line |] eqn:Hline.
  2: { rewrite main_eof by done. simpl. split; [by eexists | by left]. }
  destruct (str_truthy (strip line)) eqn:Hu.
  2: { apply str_truthy_false in Hu.
       rewrite (main_blank repr w args line Hline Hu). simpl.
       split; [by eexists | by left]. }
  destruct (use_azure args) eqn:Hazure.
  { rewrite (main_azure repr w args line Hline Hu Hazure).
    pose proof (get_chat_response_azure_printed w (strip line)
                  [EvPrint "Chatbot initialized. Enter your question.";
                   EvInput "You: "]) as Hp.
    destruct (get_chat_response_azure_trace w (strip line)
                [EvPrint "Chatbot initialized. Enter your question.";
                 EvInput "You: "]) as (evs & Htr & _).
    destruct (get_chat_response_azure w (strip line) _) as [r tr].
    simpl in Hp, Htr. subst tr. apply Hshape.
    unfold printed in Hp |- *. simpl in Hp. by injection Hp. }
  destruct (args_api_key args) as [k |] eqn:Hkey.
  2: { rewrite (main_no_key repr w args line Hline Hu Hazure) by auto.
       simpl. split; [by eexists | by left]. }
  destruct (str_truthy k) eqn:Hk.
  2: { apply str_truthy_false in Hk. subst k.
       rewrite (main_no_key repr w args line Hline Hu Hazure) by auto.
       simpl. split; [by eexists | by left]. }
  rewrite (main_direct repr w args line k Hline Hu Hazure Hkey Hk).
  pose proof (get_chat_response_trace w k (strip line)
                [EvPrint "Chatbot initialized. Enter your question.";
                 EvInput "You: "]) as Htr.
  destruct (get_chat_response w k (strip line) _) as [r tr].
  simpl in Htr. subst tr. by apply Hshape.
Qed.
